(** * shopify-publish-demo: the interactive publishing client of [src/run.ts]

    A shallow embedding of [run.ts] and the properties of its
    specification that concern the config store, the API client, the prompt
    layer, the printer and the driver loop.

    The program is a sequential script around three kinds of interaction
    with its surroundings: the operator at the terminal (through the
    [prompts] package), the shop's GraphQL endpoint (through
    [graphql-request]) and the file that caches the credentials.  Every
    [async] function of the source is a computation in the monad [M] below:
    it threads a [World] holding what the surroundings will answer and the
    trace of what the program has done so far, and it ends in an [Outcome]:
    a returned value, a thrown error, or a wait that is never answered. *)

From Stdlib Require Import String Ascii List Arith Bool Lia DecimalString.
Import ListNotations.

Local Open Scope list_scope.
Local Open Scope string_scope.

(** ** JavaScript values the program handles *)

(** The line feed written as [\n] in the source's template literals. *)
Definition LF : string := String (ascii_of_nat 10) EmptyString.

(** [${n}] for a non-negative integer such as [ps.length]. *)
Definition string_of_nat (n : nat) : string :=
  NilEmpty.string_of_uint (Nat.to_uint n).

(** [${v}] for a property that holds a string or is [undefined]
    ([None]). *)
Definition template (v : option string) : string :=
  match v with
  | Some s => s
  | None => "undefined"
  end.

(** An object whose own properties hold strings, in insertion order: the
    answers object built by [prompts], and the [Config] the program reads
    its two fields from. *)
Definition JsObject := list (string * string).

(** [o[k]], [None] standing for [undefined]. *)
Fixpoint get (o : JsObject) (k : string) : option string :=
  match o with
  | [] => None
  | (k', v) :: o' => if String.eqb k' k then Some v else get o' k
  end.

(** [o[k] = v]: overwrite in place, or add as the last property. *)
Fixpoint set (o : JsObject) (k v : string) : JsObject :=
  match o with
  | [] => [(k, v)]
  | (k', v') :: o' =>
      if String.eqb k' k then (k', v) :: o' else (k', v') :: set o' k v
  end.

(** [type Config = { shopName: string, accessToken: string }].  The type
    annotation is not checked at run time, so a value typed [Config] is any
    object; the two fields are read with [get]. *)
Definition Config := JsObject.

(** [type Publication = { gid: string, name: string }]. *)
Record Publication := { gid : string; name : string }.

(** Errors a computation can be rejected with. *)
Inductive JsError :=
| Error (msg : string)           (* [new Error(msg)] *)
| TypeError (reading : string)   (* a property read on [null] or [undefined] *)
| SyntaxError                    (* [JSON.parse] on a malformed text *)
| ClientError (reason : string)  (* a request rejected by [graphql-request] *)
| SystemError (code : string).   (* a file operation rejected by [fs] *)

(** ** The [prompts] package

    [prompts(questions)] asks the questions in order and resolves to an
    object with one property per answered question, keyed by the question's
    [name].  When the operator cancels a question the package stops asking
    and resolves to the answers collected so far, so the cancelled question
    and those after it are absent from the object. *)
Module Prompts.

Inductive PromptType := text | password | select.

Record Choice := { title : string; value : string }.

Record Question := {
  type : PromptType;
  name : string;
  message : string;
  choices : list Choice
}.

(** What the operator does at one question before submitting it: types a
    line, or moves the cursor to a choice.  A script of the operator's
    session at one [prompts] call is a list of these, one per question
    answered; the call is cancelled at the question where the list
    ends. *)
Inductive Input :=
| Typed (line : string)
| Picked (cursor : nat).

(** The value submitted for a question, [None] when the input does not
    answer it (counted as a cancel). *)
Definition submitted (q : Question) (i : Input) : option string :=
  match type q, i with
  | text, Typed line => Some line
  | password, Typed line => Some line
  | select, Picked cursor => option_map value (nth_error (choices q) cursor)
  | _, _ => None
  end.

(** The package's loop over the questions, [answers] being the object
    under construction. *)
Fixpoint ask (questions : list Question) (session : list Input)
    (answers : JsObject) : JsObject :=
  match questions, session with
  | q :: questions', i :: session' =>
      match submitted q i with
      | Some v => ask questions' session' (set answers (name q) v)
      | None => answers
      end
  | _, _ => answers
  end.

End Prompts.

(** ** The GraphQL endpoint *)

(** [edges { node { ... } }] of a connection. *)
Record Edge (A : Type) := { node : A }.
Arguments node {A} _.
Arguments Build_Edge {A} _.

Record Connection (A : Type) := { edges : list (Edge A) }.
Arguments edges {A} _.
Arguments Build_Connection {A} _.

(** [node { publication { gid: id name } }]. *)
Record ResourcePublication := { publication : Publication }.

(** [product(id: $productGid) { resourcePublicationsV2(first: 10) {...} }]. *)
Record Product := { resourcePublicationsV2 : Connection ResourcePublication }.

(** [userErrors { message }]. *)
Record UserError := { message : string }.

Record PublishPayload := { userErrors : list UserError }.

(** The [data] a request resolves to, one shape per operation.  The
    schema's nullable fields are options: [product] is [null] when no
    product has the id, [publishablePublish] when the mutation produced no
    payload. *)
Inductive Data :=
| DataPublications (publications : Connection Publication)
| DataProduct (product : option Product)
| DataPublish (publishablePublish : option PublishPayload).

(** What the endpoint does with one request: [graphql-request] rejects on
    a transport failure or a GraphQL [errors] payload, and resolves to the
    [data] otherwise. *)
Inductive Response :=
| Rejected (reason : string)
| Resolved (data : Data).

(** The three documents of the source, by the selection they make. *)
Inductive Operation :=
| PublicationsQuery (first : nat)          (* [publications(first: 20)] *)
| ProductPublicationsQuery (first : nat)   (* [resourcePublicationsV2(first: 10)] *)
| PublishMutation.                         (* [publishablePublish] *)

Record Request := {
  operation : Operation;
  variables : list (string * string)
}.

(** [new GraphQLClient(url, { headers })]. *)
Record GraphQLClient := {
  url : string;
  headers : list (string * option string)
}.

(** [class Client]. *)
Record Client := { gqlClient : GraphQLClient }.

(** ** The world and its trace *)

(** What the program does to its surroundings, in order. *)
Inductive Event :=
| ConsoleLog (line : string)                       (* [console.log(line)] *)
| ConsoleWarn (line : string) (errs : list UserError)
| Prompt (questions : list Prompts.Question)       (* [prompts(questions)] *)
| Sent (to : GraphQLClient) (req : Request)        (* [gqlClient.request] *)
| ReadFile (path : string)
| WriteFile (path content : string).               (* write started *)

Record World := {
  files : string -> option string;      (* path to content, [None]: no file *)
  operator : list (list Prompts.Input); (* one session per [prompts] call *)
  server : list Response;               (* one response per request *)
  clock : nat -> string;                (* ISO-8601 instant of the n-th reading *)
  readings : nat;                       (* readings of the clock so far *)
  trace : list Event
}.

(** The world after the program has done [evs], in that order. *)
Definition emits (evs : list Event) (w : World) : World :=
  {| files := files w; operator := operator w; server := server w;
     clock := clock w; readings := readings w; trace := trace w ++ evs |}.

Definition emit (e : Event) (w : World) : World := emits [e] w.

Definition with_operator (o : list (list Prompts.Input)) (w : World) : World :=
  {| files := files w; operator := o; server := server w;
     clock := clock w; readings := readings w; trace := trace w |}.

Definition with_server (s : list Response) (w : World) : World :=
  {| files := files w; operator := operator w; server := s;
     clock := clock w; readings := readings w; trace := trace w |}.

Definition with_readings (n : nat) (w : World) : World :=
  {| files := files w; operator := operator w; server := server w;
     clock := clock w; readings := n; trace := trace w |}.

(** ** The monad of [async] computations *)

Inductive Outcome (A : Type) :=
| Returned (a : A)     (* the promise resolves *)
| Thrown (e : JsError) (* the promise rejects *)
| Pending              (* an awaited answer never comes *)
| OutOfFuel.           (* the bound on loop iterations of the model ran out *)
Arguments Returned {A} _.
Arguments Thrown {A} _.
Arguments Pending {A}.
Arguments OutOfFuel {A}.

Definition M (A : Type) : Type := World -> Outcome A * World.

Definition ret {A} (a : A) : M A := fun w => (Returned a, w).

Definition throw {A} (e : JsError) : M A := fun w => (Thrown e, w).

Definition bind {A B} (m : M A) (k : A -> M B) : M B :=
  fun w =>
    match m w with
    | (Returned a, w') => k a w'
    | (Thrown e, w') => (Thrown e, w')
    | (Pending, w') => (Pending, w')
    | (OutOfFuel, w') => (OutOfFuel, w')
    end.

Declare Scope async_scope.
Delimit Scope async_scope with async.
Notation "x <- m ;; k" := (bind m (fun x => k))
  (at level 61, m at next level, right associativity) : async_scope.
Notation "m ;; k" := (bind m (fun _ => k))
  (at level 61, right associativity) : async_scope.
Local Open Scope async_scope.

(** *** Primitive interactions *)

Definition console_log (line : string) : M unit :=
  fun w => (Returned tt, emit (ConsoleLog line) w).

Definition console_warn (line : string) (errs : list UserError) : M unit :=
  fun w => (Returned tt, emit (ConsoleWarn line errs) w).

(** [await prompts(questions)]: the questions are shown, and the next
    session of the operator decides the answers. *)
Definition prompts (questions : list Prompts.Question) : M JsObject :=
  fun w =>
    match operator w with
    | [] => (Pending, emit (Prompt questions) w)
    | session :: later =>
        (Returned (Prompts.ask questions session []),
         with_operator later (emit (Prompt questions) w))
    end.

(** [await this.gqlClient.request(document, variables)]. *)
Definition request (c : GraphQLClient) (req : Request) : M Data :=
  fun w =>
    match server w with
    | [] => (Pending, emit (Sent c req) w)
    | Rejected reason :: later =>
        (Thrown (ClientError reason), with_server later (emit (Sent c req) w))
    | Resolved data :: later =>
        (Returned data, with_server later (emit (Sent c req) w))
    end.

(** [new Date().toISOString()]. *)
Definition now_ISOString : M string :=
  fun w => (Returned (clock w (readings w)), with_readings (S (readings w)) w).

(** [fs.existsSync(path)]. *)
Definition existsSync (path : string) : M bool :=
  fun w =>
    match files w path with
    | Some _ => (Returned true, w)
    | None => (Returned false, w)
    end.

(** [await fs.promises.readFile(path, "utf-8")]. *)
Definition readFile (path : string) : M string :=
  fun w =>
    match files w path with
    | Some content => (Returned content, emit (ReadFile path) w)
    | None => (Thrown (SystemError "ENOENT"), emit (ReadFile path) w)
    end.

(** [fs.promises.writeFile(path, content)] without [await]: the write is
    started and the caller goes on at once, so the world records that it was
    started and leaves the file's content to the surroundings. *)
Definition writeFile_unawaited (path content : string) : M unit :=
  fun w => (Returned tt, emit (WriteFile path content) w).

(** [for (const x of xs) body(x)]. *)
Fixpoint for_of {A} (xs : list A) (body : A -> M unit) : M unit :=
  match xs with
  | [] => ret tt
  | x :: xs' => body x ;; for_of xs' body
  end.

(** [a === b] for a property [a] that holds a string or is [undefined]. *)
Definition strict_eq (a : option string) (b : string) : bool :=
  match a with
  | Some s => String.eqb s b
  | None => false
  end.

(** ** The program *)

(** *** Prompts *)

Definition configQuestions : list Prompts.Question :=
  [ {| Prompts.type := Prompts.text;
       Prompts.name := "shopName";
       Prompts.message := "Enter shop name (<shopname>.myshopify.com):";
       Prompts.choices := [] |};
    {| Prompts.type := Prompts.password;
       Prompts.name := "accessToken";
       Prompts.message := "Enter access token / private api key:";
       Prompts.choices := [] |} ].

Definition askConfig : M Config :=
  prompts configQuestions.

Definition productIdQuestion : Prompts.Question :=
  {| Prompts.type := Prompts.text;
     Prompts.name := "productId";
     Prompts.message := "Enter product id";
     Prompts.choices := [] |}.

Definition askProductId : M (option string) :=
  answers <- prompts [productIdQuestion] ;;
  ret (get answers "productId").

Definition skipChoice : Prompts.Choice :=
  {| Prompts.title := "Skip"; Prompts.value := EmptyString |}.

Definition pubChoices (pubs : list Publication) : list Prompts.Choice :=
  map (fun pub => {| Prompts.title := name pub; Prompts.value := gid pub |}) pubs.

Definition publicationGidQuestion (pubs : list Publication) : Prompts.Question :=
  {| Prompts.type := Prompts.select;
     Prompts.name := "publicationGid";
     Prompts.message := "Choose where to publish";
     Prompts.choices := skipChoice :: pubChoices pubs |}.

Definition askPublicationGid (pubs : list Publication) : M (option string) :=
  answers <- prompts [publicationGidQuestion pubs] ;;
  let publicationGid := get answers "publicationGid" in
  if strict_eq publicationGid EmptyString then ret None
  else ret publicationGid.

(** *** Printer *)

Definition printPublications (label : string) (ps : list Publication) : M unit :=
  console_log EmptyString ;;
  console_log (label ++ " (" ++ string_of_nat (List.length ps) ++ ")" ++ LF) ;;
  for_of ps (fun p => console_log ("* " ++ name p ++ " (" ++ gid p ++ ")")) ;;
  console_log EmptyString.

(** *** API client *)

Definition new_Client (config : Config) : Client :=
  let url := "https://" ++ template (get config "shopName")
             ++ ".myshopify.com/admin/api/2021-07/graphql.json" in
  {| gqlClient :=
       {| url := url;
          headers := [("X-Shopify-Access-Token", get config "accessToken")] |} |}.

Definition publicationsRequest : Request :=
  {| operation := PublicationsQuery 20; variables := [] |}.

Definition listPublications (this : Client) : M (list Publication) :=
  r <- request (gqlClient this) publicationsRequest ;;
  match r with
  | DataPublications publications => ret (map node (edges publications))
  | _ => throw (TypeError "edges")
  end.

Definition productPublicationsRequest (productGid : string) : Request :=
  {| operation := ProductPublicationsQuery 10;
     variables := [("productGid", productGid)] |}.

Definition listProductPublications (this : Client) (productId : string)
    : M (list Publication) :=
  let productGid := "gid://shopify/Product/" ++ productId in
  r <- request (gqlClient this) (productPublicationsRequest productGid) ;;
  match r with
  | DataProduct (Some product) =>
      ret (map (fun e => publication (node e))
               (edges (resourcePublicationsV2 product)))
  | _ => throw (TypeError "resourcePublicationsV2")
  end.

Definition publishRequest (productGid publicationGid publishDate : string)
    : Request :=
  {| operation := PublishMutation;
     variables := [("productGid", productGid);
                   ("publicationGid", publicationGid);
                   ("publishDate", publishDate)] |}.

Definition publishProduct (this : Client) (productId publicationGid : string)
    : M unit :=
  let productGid := "gid://shopify/Product/" ++ productId in
  publishDate <- now_ISOString ;;
  r <- request (gqlClient this)
         (publishRequest productGid publicationGid publishDate) ;;
  match r with
  | DataPublish (Some publishablePublish) =>
      let errs := userErrors publishablePublish in
      if Nat.ltb 0 (List.length errs) then
        console_warn "Got errors while publishing" errs ;;
        throw (Error "Unable to publish")
      else ret tt
  | _ => throw (TypeError "userErrors")
  end.

(** *** Driver loop *)

(** How one pass through the body of [while (true)] ends: at [break], or at
    [continue] or the end of the body. *)
Inductive Completion := Break | Continue.

Fixpoint while_true (fuel : nat) (body : M Completion) : M unit :=
  match fuel with
  | 0 => fun w => (OutOfFuel, w)
  | S fuel' =>
      c <- body ;;
      match c with
      | Break => ret tt
      | Continue => while_true fuel' body
      end
  end.

(** The body of the loop of [main]. *)
Definition iteration (client : Client) (allPublications : list Publication)
    : M Completion :=
  productId <- askProductId ;;
  match productId with
  | None => console_log "Done!" ;; ret Break
  | Some productId =>
      if String.eqb productId EmptyString then
        console_log "Done!" ;; ret Break
      else
        console_log ("Looking for publications for product " ++ productId ++ "...") ;;
        productPublications <- listProductPublications client productId ;;
        printPublications ("Publications for product " ++ productId)
          productPublications ;;
        publicationGid <- askPublicationGid allPublications ;;
        match publicationGid with
        | None => console_log "Skipping." ;; ret Continue
        | Some publicationGid =>
            console_log ("Publish product " ++ productId ++ " to "
                         ++ publicationGid ++ "...") ;;
            publishProduct client productId publicationGid ;;
            ret Continue
        end
  end.

Definition main_loop (fuel : nat) (client : Client)
    (allPublications : list Publication) : M unit :=
  while_true fuel (iteration client allPublications).

(** *** Config store and [main]

    The platform's [JSON] object and the place of the config file are
    taken as given: [configPath] is the value of
    [path.join(__dirname, "config.json")], [JSON_stringify config] is
    [JSON.stringify(config, null, 2)], and [JSON_parse] is [JSON.parse] on
    the texts that denote an object of strings, [None] standing for a text
    it rejects with a [SyntaxError].  The source returns what [JSON.parse]
    yields unchecked; texts that denote a JSON value of another shape are
    not covered by this model. *)
Section Host.

Variable configPath : string.
Variable JSON_parse : string -> option Config.
Variable JSON_stringify : Config -> string.

Definition loadConfig : M Config :=
  present <- existsSync configPath ;;
  if (present : bool) then
    console_log ("Using config from " ++ configPath ++ "...") ;;
    content <- readFile configPath ;;
    match JSON_parse content with
    | Some config => ret config
    | None => throw SyntaxError
    end
  else
    config <- askConfig ;;
    console_log ("Writing config to " ++ configPath ++ ".") ;;
    writeFile_unawaited configPath (JSON_stringify config) ;;
    ret config.

Definition main (fuel : nat) : M unit :=
  config <- loadConfig ;;
  let client := new_Client config in
  allPublications <- listPublications client ;;
  console_log "Looking for all publications..." ;;
  printPublications "All publications" allPublications ;;
  main_loop fuel client allPublications.

End Host.

(** ** What the console shows *)

(** Lines, each ended by a line feed. *)
Fixpoint unlines (lines : list string) : string :=
  match lines with
  | [] => EmptyString
  | l :: lines' => l ++ LF ++ unlines lines'
  end.

(** The text that a stretch of the trace writes to standard output:
    [console.log(line)] writes [line] and a line feed. *)
Fixpoint stdout_text (evs : list Event) : string :=
  match evs with
  | [] => EmptyString
  | ConsoleLog line :: evs' => line ++ LF ++ stdout_text evs'
  | _ :: evs' => stdout_text evs'
  end.

Definition header (label : string) (ps : list Publication) : string :=
  label ++ " (" ++ string_of_nat (List.length ps) ++ ")".

Definition bullet (p : Publication) : string :=
  "* " ++ name p ++ " (" ++ gid p ++ ")".

(** The arguments of the calls of [console.log] in [printPublications]. *)
Definition printed (label : string) (ps : list Publication) : list string :=
  ([EmptyString; (header label ps ++ LF)%string] ++ map bullet ps
   ++ [EmptyString])%list.

(** The lines [printPublications] leaves on the console: the header's own
    line feed adds an empty line under it. *)
Definition printPublications_lines (label : string) (ps : list Publication)
    : list string :=
  ([EmptyString; header label ps; EmptyString] ++ map bullet ps
   ++ [EmptyString])%list.

(** The lines as the specification words them: a blank line, the header,
    one bullet per entry, a trailing blank line. *)
Definition spec_printPublications_lines (label : string)
    (ps : list Publication) : list string :=
  ([EmptyString; header label ps] ++ map bullet ps ++ [EmptyString])%list.

(** ** Vocabulary of the statements *)

(** A response answers a request well when it has the shape the operation
    selects and no more edges than the [first] the request asked for. *)
Definition well_formed_for (req : Request) (d : Data) : Prop :=
  match operation req, d with
  | PublicationsQuery first, DataPublications c =>
      List.length (edges c) <= first
  | ProductPublicationsQuery first, DataProduct (Some p) =>
      List.length (edges (resourcePublicationsV2 p)) <= first
  | ProductPublicationsQuery _, DataProduct None => True
  | PublishMutation, DataPublish _ => True
  | _, _ => False
  end.

(** The specification's result of listing: a list is returned, and it
    has no more than [n] elements. *)
Definition returns_at_most (n : nat) (o : Outcome (list Publication)) : Prop :=
  match o with
  | Returned ps => List.length ps <= n
  | _ => False
  end.

(** The specification's two ways for an invalid id to surface: a result
    set, or a remote error. *)
Definition result_set_or_remote_error (o : Outcome (list Publication)) : Prop :=
  match o with
  | Returned _ => True
  | Thrown (ClientError _) => True
  | _ => False
  end.

(** The specification's config: an object with both fields. *)
Definition has_both_fields (config : Config) : Prop :=
  get config "shopName" <> None /\ get config "accessToken" <> None.

(** The value of the choice the operator submits at the publication-choice
    prompt, [None] when the prompt is cancelled. *)
Definition selection (pubs : list Publication) (session : list Prompts.Input)
    : option string :=
  match session with
  | i :: _ => Prompts.submitted (publicationGidQuestion pubs) i
  | [] => None
  end.

Definition is_publish (e : Event) : bool :=
  match e with
  | Sent _ req =>
      match operation req with
      | PublishMutation => true
      | _ => false
      end
  | _ => false
  end.

Definition is_sent (e : Event) : bool :=
  match e with
  | Sent _ _ => true
  | _ => false
  end.

Definition is_prompt (e : Event) : bool :=
  match e with
  | Prompt _ => true
  | _ => false
  end.

Definition is_write (e : Event) : bool :=
  match e with
  | WriteFile _ _ => true
  | _ => false
  end.

(** [m] leaves the worlds it starts from and ends in related by [R]. *)
Definition preserves {A} (R : World -> World -> Prop) (m : M A) : Prop :=
  forall w, R w (snd (m w)).

(** The program only ever adds to the trace. *)
Definition extends (w w' : World) : Prop :=
  exists evs, trace w' = (trace w ++ evs)%list.

(** The operator's script is only ever consumed. *)
Definition consumes (w w' : World) : Prop :=
  List.length (operator w') <= List.length (operator w).

(** [m] never stops for lack of fuel. *)
Definition fuel_free {A} (m : M A) : Prop :=
  forall w, fst (m w) <> OutOfFuel.

(** Started from [w], [m] adds to the trace only events that satisfy [P],
    and what it returns, when it returns, satisfies [Q]. *)
Definition does_at {A} (m : M A) (P : Event -> Prop) (Q : A -> Prop)
    (w : World) : Prop :=
  exists evs,
    trace (snd (m w)) = (trace w ++ evs)%list
    /\ Forall P evs
    /\ (forall a, fst (m w) = Returned a -> Q a).

Definition does {A} (m : M A) (P : Event -> Prop) (Q : A -> Prop) : Prop :=
  forall w, does_at m P Q w.

Definition anything {A} : A -> Prop := fun _ => True.

(** The gid a publication-choice prompt may hand to the caller: not empty,
    and the gid of one of the publications on the menu. *)
Definition listed_gid (pubs : list Publication) (g : string) : Prop :=
  g <> EmptyString /\ exists p, In p pubs /\ gid p = g.

(** The events a pass of the driver loop may add to the trace. *)
Definition loop_event (client : Client) (allPublications : list Publication)
    (e : Event) : Prop :=
  match e with
  | ConsoleLog _ => True
  | ConsoleWarn _ _ => True
  | Prompt questions =>
      questions = [productIdQuestion]
      \/ questions = [publicationGidQuestion allPublications]
  | Sent to req =>
      to = gqlClient client
      /\ exists productId,
           productId <> EmptyString
           /\ (req = productPublicationsRequest
                       ("gid://shopify/Product/" ++ productId)
               \/ exists publicationGid publishDate,
                    listed_gid allPublications publicationGid
                    /\ req = publishRequest
                               ("gid://shopify/Product/" ++ productId)
                               publicationGid publishDate)
  | ReadFile _ => False
  | WriteFile _ _ => False
  end.

(** The events a run of [main] may add to the trace once it holds
    [config]. *)
Definition run_event (config : Config) (e : Event) : Prop :=
  match e with
  | ConsoleLog _ => True
  | ConsoleWarn _ _ => True
  | Prompt questions => questions <> configQuestions
  | Sent to _ => to = gqlClient (new_Client config)
  | ReadFile _ => False
  | WriteFile _ _ => False
  end.

Definition is_file_event (e : Event) : bool :=
  match e with
  | ReadFile _ => true
  | WriteFile _ _ => true
  | _ => false
  end.

(** ** A host for the examples

    The statements about the config store hold for every [JSON_parse] and
    [JSON_stringify].  The examples run on the host below, which covers the
    objects this program writes: members that hold strings, printed with an
    indentation of two spaces. *)
Module ExampleHost.

Definition DQ : ascii := ascii_of_nat 34.
Definition BACKSLASH : ascii := ascii_of_nat 92.

Definition hex_digit (n : nat) : ascii :=
  if (n <? 10)%nat then ascii_of_nat (48 + n) else ascii_of_nat (87 + n).

(** The escapes of [JSON.stringify] for the characters below [0x80]. *)
Definition escape_char (c : ascii) : string :=
  let n := nat_of_ascii c in
  if (n =? 8)%nat then "\b"
  else if (n =? 9)%nat then "\t"
  else if (n =? 10)%nat then "\n"
  else if (n =? 12)%nat then "\f"
  else if (n =? 13)%nat then "\r"
  else if (n =? 34)%nat then String BACKSLASH (String DQ EmptyString)
  else if (n =? 92)%nat then String BACKSLASH (String BACKSLASH EmptyString)
  else if (n <? 32)%nat then
    "\u00" ++ String (hex_digit (n / 16)) (String (hex_digit (n mod 16)) EmptyString)
  else String c EmptyString.

Fixpoint escape (s : string) : string :=
  match s with
  | EmptyString => EmptyString
  | String c s' => escape_char c ++ escape s'
  end.

Definition quote (s : string) : string :=
  String DQ (escape s ++ String DQ EmptyString).

Definition member (kv : string * string) : string :=
  "  " ++ quote (fst kv) ++ ": " ++ quote (snd kv).

Fixpoint members (o : JsObject) : string :=
  match o with
  | [] => EmptyString
  | [kv] => member kv ++ LF
  | kv :: o' => member kv ++ "," ++ LF ++ members o'
  end.

(** [JSON.stringify(o, null, 2)]. *)
Definition JSON_stringify (o : JsObject) : string :=
  match o with
  | [] => "{}"
  | _ => "{" ++ LF ++ members o ++ "}"
  end.

Definition is_space (c : ascii) : bool :=
  let n := nat_of_ascii c in
  (n =? 32)%nat || (n =? 9)%nat || (n =? 10)%nat || (n =? 13)%nat.

Fixpoint skip_space (s : string) : string :=
  match s with
  | String c s' => if is_space c then skip_space s' else s
  | EmptyString => s
  end.

(** The character an escape [\e] stands for; [\u] escapes are not read
    by this host. *)
Definition unescape (e : ascii) : option ascii :=
  let n := nat_of_ascii e in
  if (n =? 98)%nat then Some (ascii_of_nat 8)
  else if (n =? 116)%nat then Some (ascii_of_nat 9)
  else if (n =? 110)%nat then Some (ascii_of_nat 10)
  else if (n =? 102)%nat then Some (ascii_of_nat 12)
  else if (n =? 114)%nat then Some (ascii_of_nat 13)
  else if (n =? 34)%nat || (n =? 92)%nat || (n =? 47)%nat then Some e
  else None.

(** The characters of a string literal after its opening quote, and the
    text after its closing quote. *)
Fixpoint read_chars (s : string) : option (string * string) :=
  match s with
  | EmptyString => None
  | String c s' =>
      if Ascii.eqb c DQ then Some (EmptyString, s')
      else if Ascii.eqb c BACKSLASH then
        match s' with
        | String e s'' =>
            match unescape e, read_chars s'' with
            | Some c', Some (body, rest) => Some (String c' body, rest)
            | _, _ => None
            end
        | EmptyString => None
        end
      else if (nat_of_ascii c <? 32)%nat then None
      else
        match read_chars s' with
        | Some (body, rest) => Some (String c body, rest)
        | None => None
        end
  end.

Definition read_string (s : string) : option (string * string) :=
  match skip_space s with
  | String c s' => if Ascii.eqb c DQ then read_chars s' else None
  | EmptyString => None
  end.

Definition expect (c : ascii) (s : string) : option string :=
  match skip_space s with
  | String c' s' => if Ascii.eqb c' c then Some s' else None
  | EmptyString => None
  end.

(** The members of an object after its opening brace, [fuel] bounding
    their number. *)
Fixpoint read_members (fuel : nat) (s : string) (o : JsObject)
    : option JsObject :=
  match fuel with
  | 0 => None
  | S fuel' =>
      match read_string s with
      | None => None
      | Some (k, s1) =>
          match expect ":" s1 with
          | None => None
          | Some s2 =>
              match read_string s2 with
              | None => None
              | Some (v, s3) =>
                  match expect "," s3, expect "}" s3 with
                  | Some s4, _ => read_members fuel' s4 (set o k v)
                  | None, Some s4 =>
                      match skip_space s4 with
                      | EmptyString => Some (set o k v)
                      | _ => None
                      end
                  | None, None => None
                  end
              end
          end
      end
  end.

(** [JSON.parse(s)] on the texts this host reads: an object whose members
    hold strings written without [\u] escapes.  Any other text gives
    [None], also where the platform's [JSON.parse] would accept it (a
    [\u] escape, a member that holds a number), so this host stands for
    [JSON.parse] on the texts of the examples only. *)
Definition JSON_parse (s : string) : option JsObject :=
  match expect "{" s with
  | None => None
  | Some s1 =>
      match expect "}" s1 with
      | Some s2 =>
          match skip_space s2 with
          | EmptyString => Some []
          | _ => None
          end
      | None => read_members (String.length s) s1 []
      end
  end.

Definition configPath : string := "/opt/shopify-publish-demo/config.json".

Definition loadConfig : M Config :=
  loadConfig configPath JSON_parse JSON_stringify.

Definition main : nat -> M unit :=
  main configPath JSON_parse JSON_stringify.

End ExampleHost.

(** ** Example worlds *)

Definition onlineStore : Publication :=
  {| gid := "gid://shopify/Publication/1"; name := "Online Store" |}.

Definition pointOfSale : Publication :=
  {| gid := "gid://shopify/Publication/2"; name := "Point of Sale" |}.

(** A publication whose [gid] is the empty string. *)
Definition unnamedChannel : Publication :=
  {| gid := EmptyString; name := "Draft channel" |}.

Definition acme : Config := [("shopName", "acme"); ("accessToken", "tok")].

Definition acmeClient : Client := new_Client acme.

Definition no_files : string -> option string := fun _ => None.

Definition acme_files : string -> option string :=
  fun path =>
    if String.eqb path ExampleHost.configPath
    then Some (ExampleHost.JSON_stringify acme)
    else None.

(** The files of a host whose config file holds [content]. *)
Definition config_file_with (content : string) : string -> option string :=
  fun path =>
    if String.eqb path ExampleHost.configPath then Some content else None.

Definition noon : nat -> string := fun _ => "2021-09-01T12:00:00.000Z".

(** A world at the start of a run. *)
Definition world (fs : string -> option string)
    (sessions : list (list Prompts.Input)) (responses : list Response) : World :=
  {| files := fs; operator := sessions; server := responses;
     clock := noon; readings := 0; trace := [] |}.

Definition product_with (ps : list Publication) : Data :=
  DataProduct
    (Some {| resourcePublicationsV2 :=
               {| edges := map (fun p => {| node := {| publication := p |} |}) ps |} |}).

Definition publications_of (ps : list Publication) : Data :=
  DataPublications {| edges := map (fun p => {| node := p |}) ps |}.

Definition publish_with (errs : list UserError) : Data :=
  DataPublish (Some {| userErrors := errs |}).

(** * Properties *)

(** ** Strings and worlds *)

Lemma append_assoc (a b c : string) : (a ++ b) ++ c = a ++ (b ++ c).
Proof.
  induction a as [|ch a IH]; simpl; [reflexivity | now rewrite IH].
Qed.

Lemma emits_nil (w : World) : emits [] w = w.
Proof.
  destruct w; unfold emits; simpl. now rewrite app_nil_r.
Qed.

Lemma emits_emits (a b : list Event) (w : World) :
  emits b (emits a w) = emits (a ++ b) w.
Proof.
  unfold emits; simpl. now rewrite app_assoc.
Qed.

Lemma emits_emit (e : Event) (a : list Event) (w : World) :
  emits a (emit e w) = emits (e :: a) w.
Proof. unfold emit. now rewrite emits_emits. Qed.

(** Unfolding one step of a sequence. *)
Lemma bind_returned {A B} (m : M A) (k : A -> M B) (w w' : World) (a : A) :
  m w = (Returned a, w') -> bind m k w = k a w'.
Proof. intros H. unfold bind. now rewrite H. Qed.

Lemma bind_thrown {A B} (m : M A) (k : A -> M B) (w w' : World) (e : JsError) :
  m w = (Thrown e, w') -> bind m k w = (Thrown e, w').
Proof. intros H. unfold bind. now rewrite H. Qed.

(** ** Printer *)

Lemma for_of_console_log {A} (line : A -> string) (xs : list A) (w : World) :
  for_of xs (fun x => console_log (line x)) w
  = (Returned tt, emits (map ConsoleLog (map line xs)) w).
Proof.
  revert w. induction xs as [|x xs IH]; intros w; simpl.
  - unfold ret. now rewrite emits_nil.
  - unfold bind, console_log at 1. rewrite IH. now rewrite emits_emit.
Qed.

Lemma printPublications_run (label : string) (ps : list Publication) (w : World) :
  printPublications label ps w
  = (Returned tt, emits (map ConsoleLog (printed label ps)) w).
Proof.
  unfold printPublications, printed, header.
  unfold bind at 1, console_log at 1.
  unfold bind at 1, console_log at 1.
  unfold bind at 1. rewrite for_of_console_log.
  unfold console_log, emit. rewrite !emits_emits.
  repeat rewrite append_assoc. simpl.
  rewrite map_app. reflexivity.
Qed.

Lemma stdout_text_logs (lines : list string) :
  stdout_text (map ConsoleLog lines) = unlines lines.
Proof.
  induction lines as [|l lines IH]; simpl; [reflexivity | now rewrite IH].
Qed.

(** C9, as the claim words it, fails: for the list holding the one
    publication "Online Store" the console does not show the four lines
    blank, header, bullet, blank, because an empty line follows the
    header. *)
Lemma printPublications_not_as_worded :
  printPublications "All publications" [onlineStore] (world no_files [] [])
  = (Returned tt,
     emits (map ConsoleLog
              [EmptyString; "All publications (1)" ++ LF;
               "* Online Store (gid://shopify/Publication/1)"; EmptyString])
       (world no_files [] []))
  /\ stdout_text (trace (snd (printPublications "All publications" [onlineStore]
                                (world no_files [] []))))
     <> unlines (spec_printPublications_lines "All publications" [onlineStore]).
Proof.
  split; [reflexivity | vm_compute; discriminate].
Qed.

(** C9, amended: for every label and every publication list,
    [printPublications] makes exactly these calls of [console.log] and does
    nothing else: the empty line, the header ["{label} ({count})"] followed
    by a line feed of its own, one bullet ["* {name} ({gid})"] per entry in
    list order, and the empty line.  The console thus shows a blank line,
    the header, a blank line, the bullets and a trailing blank line. *)
Theorem printPublications_output (label : string) (ps : list Publication)
    (w : World) :
  printPublications label ps w
  = (Returned tt,
     emits (map ConsoleLog
              ([EmptyString; (header label ps ++ LF)%string]
               ++ map bullet ps ++ [EmptyString])%list) w)
  /\ header label ps = label ++ " (" ++ string_of_nat (List.length ps) ++ ")"
  /\ (forall p, bullet p = "* " ++ name p ++ " (" ++ gid p ++ ")")
  /\ printPublications_lines label ps
     = ([EmptyString; header label ps; EmptyString]
        ++ map bullet ps ++ [EmptyString])%list
  /\ stdout_text
       (map ConsoleLog
          ([EmptyString; (header label ps ++ LF)%string]
           ++ map bullet ps ++ [EmptyString])%list)
     = unlines (printPublications_lines label ps).
Proof.
  split; [apply printPublications_run|].
  split; [reflexivity|]. split; [reflexivity|]. split; [reflexivity|].
  rewrite stdout_text_logs. unfold printPublications_lines. simpl.
  now rewrite append_assoc.
Qed.

(** ** API client *)

(** C1: whatever the publish mutation's response holds in [userErrors],
    [publishProduct] resolves with no value when the array is empty, and
    when it is not empty it logs the errors with [console.warn] and rejects
    with the error "Unable to publish", the same for every content of the
    messages. *)
Theorem publishProduct_userErrors (this : Client)
    (productId publicationGid : string) (w : World)
    (errs : list UserError) (later : list Response) :
  server w = Resolved (DataPublish (Some {| userErrors := errs |})) :: later ->
  let sent :=
    Sent (gqlClient this)
      {| operation := PublishMutation;
         variables := [("productGid", "gid://shopify/Product/" ++ productId);
                       ("publicationGid", publicationGid);
                       ("publishDate", clock w (readings w))] |} in
  let w' := with_server later (emit sent (with_readings (S (readings w)) w)) in
  (errs = [] ->
   publishProduct this productId publicationGid w = (Returned tt, w'))
  /\ (errs <> [] ->
      publishProduct this productId publicationGid w
      = (Thrown (Error "Unable to publish"),
         emit (ConsoleWarn "Got errors while publishing" errs) w')).
Proof.
  intros Hserver sent w'.
  unfold publishProduct, bind, now_ISOString, request. simpl.
  rewrite Hserver.
  split; intros H.
  - subst errs. reflexivity.
  - destruct errs as [|e errs]; [contradiction | reflexivity].
Qed.

Lemma publishProduct_userErrors_witness :
  publishProduct acmeClient "42" (gid onlineStore)
    (world no_files [] [Resolved (publish_with [{| message := "already published" |}])])
  = (Thrown (Error "Unable to publish"),
     emits
       [Sent (gqlClient acmeClient)
          (publishRequest "gid://shopify/Product/42" (gid onlineStore) (noon 0));
        ConsoleWarn "Got errors while publishing"
          [{| message := "already published" |}]]
       (with_readings 1 (world no_files [] []))).
Proof.
  apply (publishProduct_userErrors acmeClient "42" (gid onlineStore)
           (world no_files [] [Resolved (publish_with [{| message := "already published" |}])])
           [{| message := "already published" |}] []).
  - reflexivity.
  - discriminate.
Defined.

(** C8, as the claim words it, fails: for the id "7" and the well-formed
    response whose [product] is [null], a response that has no edges to
    mirror, [listProductPublications] returns no list at all, of whatever
    length: it throws a [TypeError]. *)
Lemma listProductPublications_returns_no_list :
  well_formed_for (productPublicationsRequest "gid://shopify/Product/7")
    (DataProduct None)
  /\ fst (listProductPublications acmeClient "7"
            (world no_files [] [Resolved (DataProduct None)]))
     = Thrown (TypeError "resourcePublicationsV2")
  /\ ~ returns_at_most 10
         (fst (listProductPublications acmeClient "7"
                 (world no_files [] [Resolved (DataProduct None)]))).
Proof.
  split; [exact I|]. split; [reflexivity|]. simpl. auto.
Qed.

(** C8, amended: for every product id and every response to the product
    query, [listProductPublications] sends the query with [first: 10] for
    the identifier "gid://shopify/Product/" followed by the id.  When the
    response carries a product, it returns the nested publication objects
    of the response's edges, one per edge and in response order; the client
    does not cut the list, so the list has at most 10 elements exactly when
    the response has no more edges than the request asked for.  When the
    response's [product] is [null], it returns no list and throws a
    [TypeError]. *)
Theorem listProductPublications_mirrors_edges (this : Client)
    (productId : string) (w : World) (product : option Product)
    (later : list Response) :
  server w = Resolved (DataProduct product) :: later ->
  let req :=
    {| operation := ProductPublicationsQuery 10;
       variables := [("productGid", "gid://shopify/Product/" ++ productId)] |} in
  snd (listProductPublications this productId w)
  = with_server later (emit (Sent (gqlClient this) req) w)
  /\ (forall p, product = Some p ->
        let result :=
          map (fun e => publication (node e)) (edges (resourcePublicationsV2 p)) in
        fst (listProductPublications this productId w) = Returned result
        /\ List.length result = List.length (edges (resourcePublicationsV2 p))
        /\ (forall i e,
              nth_error (edges (resourcePublicationsV2 p)) i = Some e ->
              nth_error result i = Some (publication (node e)))
        /\ (List.length result <= 10
            <-> well_formed_for req (DataProduct (Some p))))
  /\ (product = None ->
      fst (listProductPublications this productId w)
      = Thrown (TypeError "resourcePublicationsV2")).
Proof.
  intros Hserver req.
  unfold listProductPublications, bind, request. rewrite Hserver.
  split; [|split].
  - destruct product; reflexivity.
  - intros p ->. cbv zeta. split; [reflexivity|]. split; [apply length_map|].
    split.
    + intros i e H. rewrite nth_error_map, H. reflexivity.
    + unfold well_formed_for. simpl. rewrite length_map. reflexivity.
  - intros ->. reflexivity.
Qed.

Lemma listProductPublications_mirrors_edges_witness :
  listProductPublications acmeClient "42"
    (world no_files [] [Resolved (product_with [pointOfSale; onlineStore])])
  = (Returned [pointOfSale; onlineStore],
     emit (Sent (gqlClient acmeClient)
             (productPublicationsRequest "gid://shopify/Product/42"))
       (world no_files [] []))
  /\ List.length [pointOfSale; onlineStore] <= 10.
Proof.
  pose proof (listProductPublications_mirrors_edges acmeClient "42"
    (world no_files [] [Resolved (product_with [pointOfSale; onlineStore])])
    (Some {| resourcePublicationsV2 :=
               {| edges := map (fun p => {| node := {| publication := p |} |})
                               [pointOfSale; onlineStore] |} |})
    [] eq_refl) as [Hworld [Hsome _]].
  destruct (Hsome _ eq_refl) as [Hrun [_ [_ Hlen]]].
  split.
  - rewrite (surjective_pairing (listProductPublications _ _ _)).
    rewrite Hrun, Hworld. reflexivity.
  - apply Hlen. unfold well_formed_for. cbn. lia.
Defined.

(** C4, as the claim words it, fails: for the id "42" and the well-formed
    response whose [product] is [null], [listProductPublications] neither
    returns a result set nor rejects with a remote error: reading
    [resourcePublicationsV2] of [null] throws a [TypeError] inside the
    client. *)
Lemma listProductPublications_null_product :
  well_formed_for (productPublicationsRequest "gid://shopify/Product/42")
    (DataProduct None)
  /\ fst (listProductPublications acmeClient "42"
            (world no_files [] [Resolved (DataProduct None)]))
     = Thrown (TypeError "resourcePublicationsV2")
  /\ ~ result_set_or_remote_error
         (fst (listProductPublications acmeClient "42"
                 (world no_files [] [Resolved (DataProduct None)]))).
Proof.
  split; [exact I|]. split; [reflexivity|]. simpl. auto.
Qed.

(** C4, amended: for every operator-supplied product id the client does no
    local validation: whatever the id, the request is sent with the
    identifier built from it, and the response alone decides the outcome.
    A rejected request surfaces as a remote error, a response that carries
    a product surfaces as its (possibly empty) list of publications, and a
    response whose [product] is [null] makes the operation fail with a
    [TypeError] raised in the client. *)
Theorem listProductPublications_outcomes (this : Client) (productId : string)
    (w : World) (r : Response) (later : list Response) :
  server w = r :: later ->
  let sent :=
    Sent (gqlClient this)
      (productPublicationsRequest ("gid://shopify/Product/" ++ productId)) in
  snd (listProductPublications this productId w)
  = with_server later (emit sent w)
  /\ (forall reason, r = Rejected reason ->
        fst (listProductPublications this productId w)
        = Thrown (ClientError reason))
  /\ (forall product, r = Resolved (DataProduct (Some product)) ->
        fst (listProductPublications this productId w)
        = Returned (map (fun e => publication (node e))
                        (edges (resourcePublicationsV2 product))))
  /\ (r = Resolved (DataProduct None) ->
        fst (listProductPublications this productId w)
        = Thrown (TypeError "resourcePublicationsV2")).
Proof.
  intros Hserver sent.
  unfold listProductPublications, bind, request. rewrite Hserver.
  split; [|split; [|split]].
  - destruct r as [reason | [c | [p|] | o]]; reflexivity.
  - intros reason ->. reflexivity.
  - intros product ->. reflexivity.
  - intros ->. reflexivity.
Qed.

Lemma listProductPublications_outcomes_witness :
  fst (listProductPublications acmeClient "not-a-number"
         (world no_files [] [Rejected "Invalid global id"]))
  = Thrown (ClientError "Invalid global id").
Proof.
  pose proof (listProductPublications_outcomes acmeClient "not-a-number"
    (world no_files [] [Rejected "Invalid global id"])
    (Rejected "Invalid global id") [] eq_refl) as [_ [Hrej _]].
  apply (Hrej "Invalid global id"). reflexivity.
Defined.

(** ** Prompt layer *)

(** A [prompts] call with one question yields the submitted value under
    the question's name, and nothing when the question is cancelled. *)
Lemma single_answer (q : Prompts.Question) (session : list Prompts.Input) :
  get (Prompts.ask [q] session []) (Prompts.name q)
  = match session with
    | i :: _ => Prompts.submitted q i
    | [] => None
    end.
Proof.
  destruct session as [|i rest]; simpl; [reflexivity|].
  destruct (Prompts.submitted q i) as [v|]; simpl; [|reflexivity].
  now rewrite String.eqb_refl.
Qed.

Lemma askProductId_run (w : World) (session : list Prompts.Input)
    (later : list (list Prompts.Input)) :
  operator w = session :: later ->
  askProductId w
  = (Returned match session with
              | i :: _ => Prompts.submitted productIdQuestion i
              | [] => None
              end,
     with_operator later (emit (Prompt [productIdQuestion]) w)).
Proof.
  intros Hop. unfold askProductId, bind, prompts. rewrite Hop.
  unfold ret. f_equal. f_equal. apply (single_answer productIdQuestion).
Qed.

Lemma askProductId_returned (w w1 : World) (productId : option string) :
  askProductId w = (Returned productId, w1) ->
  exists session later,
    operator w = session :: later
    /\ w1 = with_operator later (emit (Prompt [productIdQuestion]) w).
Proof.
  intros H. destruct (operator w) as [|session later] eqn:Hop.
  - unfold askProductId, bind, prompts in H. rewrite Hop in H. discriminate.
  - exists session, later. split; [reflexivity|].
    rewrite (askProductId_run w session later Hop) in H. congruence.
Qed.

Lemma askPublicationGid_run (pubs : list Publication) (w : World)
    (session : list Prompts.Input) (later : list (list Prompts.Input)) :
  operator w = session :: later ->
  askPublicationGid pubs w
  = (Returned (if strict_eq (selection pubs session) EmptyString
               then None else selection pubs session),
     with_operator later (emit (Prompt [publicationGidQuestion pubs]) w)).
Proof.
  intros Hop. unfold askPublicationGid, bind, prompts. rewrite Hop.
  pose proof (single_answer (publicationGidQuestion pubs) session) as Hget.
  simpl Prompts.name in Hget. rewrite Hget. fold (selection pubs session).
  destruct (strict_eq (selection pubs session) EmptyString); reflexivity.
Qed.

Lemma askPublicationGid_returned (pubs : list Publication) (w w1 : World)
    (publicationGid : option string) :
  askPublicationGid pubs w = (Returned publicationGid, w1) ->
  exists session later,
    operator w = session :: later
    /\ w1 = with_operator later (emit (Prompt [publicationGidQuestion pubs]) w).
Proof.
  intros H. destruct (operator w) as [|session later] eqn:Hop.
  - unfold askPublicationGid, bind, prompts in H. rewrite Hop in H. discriminate.
  - exists session, later. split; [reflexivity|].
    rewrite (askPublicationGid_run pubs w session later Hop) in H. congruence.
Qed.

Lemma strict_eq_empty (v : option string) :
  strict_eq v EmptyString = true <-> v = Some EmptyString.
Proof.
  destruct v as [s|]; simpl.
  - rewrite String.eqb_eq. split; congruence.
  - split; discriminate.
Qed.

(** C10: the publication-choice prompt offers Skip as the choice whose
    value is the empty string, and [askPublicationGid] returns [undefined]
    exactly when the submitted value is the empty string or the prompt was
    cancelled; any other submitted value is returned as it is.  So picking
    a publication whose gid is the empty string, picking Skip and
    cancelling the prompt all leave the caller with the same result and
    the same world. *)
Theorem askPublicationGid_undefined_iff (pubs : list Publication) (w : World)
    (session : list Prompts.Input) (later : list (list Prompts.Input)) :
  operator w = session :: later ->
  exists result,
    askPublicationGid pubs w
    = (Returned result,
       with_operator later (emit (Prompt [publicationGidQuestion pubs]) w))
    /\ (result = None <->
        selection pubs session = None
        \/ selection pubs session = Some EmptyString)
    /\ (forall g, result = Some g -> selection pubs session = Some g)
    /\ (session = [] -> selection pubs session = None)
    /\ (forall rest, session = Prompts.Picked 0 :: rest ->
          selection pubs session = Some EmptyString)
    /\ (forall i p rest,
          session = Prompts.Picked (S i) :: rest ->
          nth_error pubs i = Some p ->
          selection pubs session = Some (gid p))
    /\ (forall i p,
          nth_error pubs i = Some p -> gid p = EmptyString ->
          askPublicationGid pubs (with_operator ([Prompts.Picked (S i)] :: later) w)
          = askPublicationGid pubs (with_operator ([Prompts.Picked 0] :: later) w)
          /\ askPublicationGid pubs (with_operator ([] :: later) w)
             = askPublicationGid pubs (with_operator ([Prompts.Picked 0] :: later) w)).
Proof.
  intros Hop.
  assert (Hpick : forall i p rest, nth_error pubs i = Some p ->
            selection pubs (Prompts.Picked (S i) :: rest) = Some (gid p)).
  { intros i p rest Hnth. unfold selection, Prompts.submitted. simpl.
    unfold pubChoices. rewrite nth_error_map, Hnth. reflexivity. }
  exists (if strict_eq (selection pubs session) EmptyString
          then None else selection pubs session).
  split; [now apply askPublicationGid_run|].
  split; [|split; [|split; [|split; [|split]]]].
  - destruct (strict_eq (selection pubs session) EmptyString) eqn:E.
    + apply strict_eq_empty in E. split; auto.
    + split; [auto|]. intros [H|H]; [exact H|].
      apply strict_eq_empty in H. congruence.
  - intros g. destruct (strict_eq (selection pubs session) EmptyString);
      [discriminate | auto].
  - intros ->. reflexivity.
  - intros rest ->. reflexivity.
  - intros i p rest -> Hnth. now apply Hpick.
  - intros i p Hnth Hgid.
    rewrite (askPublicationGid_run pubs
               (with_operator ([Prompts.Picked (S i)] :: later) w)
               [Prompts.Picked (S i)] later eq_refl).
    rewrite (askPublicationGid_run pubs
               (with_operator ([Prompts.Picked 0] :: later) w)
               [Prompts.Picked 0] later eq_refl).
    rewrite (askPublicationGid_run pubs
               (with_operator ([] :: later) w) [] later eq_refl).
    rewrite (Hpick i p [] Hnth), Hgid. split; reflexivity.
Qed.

Lemma askPublicationGid_undefined_iff_witness :
  fst (askPublicationGid [onlineStore; unnamedChannel]
         (world no_files [[Prompts.Picked 2]] []))
  = Returned None
  /\ askPublicationGid [onlineStore; unnamedChannel]
       (world no_files [[Prompts.Picked 2]] [])
     = askPublicationGid [onlineStore; unnamedChannel]
         (world no_files [[Prompts.Picked 0]] []).
Proof.
  destruct (askPublicationGid_undefined_iff [onlineStore; unnamedChannel]
              (world no_files [[Prompts.Picked 2]] [])
              [Prompts.Picked 2] [] eq_refl)
    as [result [Hrun [Hiff [_ [_ [_ [_ Hsame]]]]]]].
  split.
  - rewrite Hrun. simpl. f_equal. apply Hiff. right. reflexivity.
  - apply (Hsame 1 unnamedChannel); reflexivity.
Defined.

(** ** How the program changes the world

    A relation between worlds that holds across each primitive interaction
    holds across every function of the program. *)
Section Preservation.

Variable R : World -> World -> Prop.
Hypothesis R_refl : forall w, R w w.
Hypothesis R_trans : forall a b c, R a b -> R b c -> R a c.
Hypothesis R_emit : forall e w, R w (emit e w).
Hypothesis R_operator :
  forall session later w,
    operator w = session :: later -> R w (with_operator later w).
Hypothesis R_server :
  forall r later w, server w = r :: later -> R w (with_server later w).
Hypothesis R_readings : forall w, R w (with_readings (S (readings w)) w).

Lemma preserves_ret {A} (a : A) : preserves R (ret a).
Proof. intros w. apply R_refl. Qed.

Lemma preserves_throw {A} (e : JsError) : preserves R (@throw A e).
Proof. intros w. apply R_refl. Qed.

Lemma preserves_bind {A B} (m : M A) (k : A -> M B) :
  preserves R m -> (forall a, preserves R (k a)) -> preserves R (bind m k).
Proof.
  intros Hm Hk w. unfold bind. specialize (Hm w).
  destruct (m w) as [[a|e| |] w']; simpl in *; try exact Hm.
  apply R_trans with w'; [exact Hm | apply Hk].
Qed.

Lemma preserves_console_log line : preserves R (console_log line).
Proof. intros w. apply R_emit. Qed.

Lemma preserves_console_warn line errs : preserves R (console_warn line errs).
Proof. intros w. apply R_emit. Qed.

Lemma preserves_prompts questions : preserves R (prompts questions).
Proof.
  intros w. unfold prompts.
  destruct (operator w) as [|session later] eqn:Hop; simpl.
  - apply R_emit.
  - apply R_trans with (emit (Prompt questions) w); [apply R_emit|].
    now apply R_operator with session.
Qed.

Lemma preserves_request c req : preserves R (request c req).
Proof.
  intros w. unfold request.
  destruct (server w) as [|[reason|data] later] eqn:Hsrv; simpl.
  - apply R_emit.
  - apply R_trans with (emit (Sent c req) w); [apply R_emit|].
    now apply R_server with (Rejected reason).
  - apply R_trans with (emit (Sent c req) w); [apply R_emit|].
    now apply R_server with (Resolved data).
Qed.

Lemma preserves_now_ISOString : preserves R now_ISOString.
Proof. intros w. apply R_readings. Qed.

Lemma preserves_existsSync path : preserves R (existsSync path).
Proof. intros w. unfold existsSync. destruct (files w path); apply R_refl. Qed.

Lemma preserves_readFile path : preserves R (readFile path).
Proof. intros w. unfold readFile. destruct (files w path); apply R_emit. Qed.

Lemma preserves_writeFile_unawaited path content :
  preserves R (writeFile_unawaited path content).
Proof. intros w. apply R_emit. Qed.

Lemma preserves_for_of {A} (xs : list A) (body : A -> M unit) :
  (forall x, preserves R (body x)) -> preserves R (for_of xs body).
Proof.
  intros Hbody. induction xs as [|x xs IH]; simpl.
  - apply preserves_ret.
  - apply preserves_bind; [apply Hbody | intros _; exact IH].
Qed.

Ltac preserving :=
  repeat first
    [ apply preserves_ret
    | apply preserves_throw
    | apply preserves_console_log
    | apply preserves_console_warn
    | apply preserves_prompts
    | apply preserves_request
    | apply preserves_now_ISOString
    | apply preserves_existsSync
    | apply preserves_readFile
    | apply preserves_writeFile_unawaited
    | apply preserves_for_of; intros ?
    | apply preserves_bind; [|intros ?]
    | match goal with
      | |- preserves _ (match ?x with _ => _ end) => destruct x
      | |- preserves _ (let _ := _ in _) => cbv zeta
      end ].

Lemma preserves_askConfig : preserves R askConfig.
Proof. unfold askConfig. preserving. Qed.

Lemma preserves_askProductId : preserves R askProductId.
Proof. unfold askProductId. preserving. Qed.

Lemma preserves_askPublicationGid pubs : preserves R (askPublicationGid pubs).
Proof. unfold askPublicationGid. preserving. Qed.

Lemma preserves_printPublications label ps :
  preserves R (printPublications label ps).
Proof. unfold printPublications. preserving. Qed.

Lemma preserves_listPublications this : preserves R (listPublications this).
Proof. unfold listPublications. preserving. Qed.

Lemma preserves_listProductPublications this productId :
  preserves R (listProductPublications this productId).
Proof. unfold listProductPublications. preserving. Qed.

Lemma preserves_publishProduct this productId publicationGid :
  preserves R (publishProduct this productId publicationGid).
Proof. unfold publishProduct. preserving. Qed.

(** The body of the loop is the product-id prompt followed by a rest
    that preserves [R] whatever the prompt returned. *)
Lemma iteration_after_prompt client allPublications :
  exists rest : option string -> M Completion,
    iteration client allPublications = bind askProductId rest
    /\ forall productId, preserves R (rest productId).
Proof.
  eexists. split; [reflexivity|]. intros productId. cbv beta.
  destruct productId as [productId|]; [|preserving].
  destruct (String.eqb productId EmptyString); [preserving|].
  apply preserves_bind; [preserving | intros _].
  apply preserves_bind; [apply preserves_listProductPublications | intros ps].
  apply preserves_bind; [apply preserves_printPublications | intros _].
  apply preserves_bind; [apply preserves_askPublicationGid | intros g].
  destruct g as [g|]; [|preserving].
  apply preserves_bind; [preserving | intros _].
  apply preserves_bind; [apply preserves_publishProduct | intros _].
  preserving.
Qed.

Lemma preserves_iteration client allPublications :
  preserves R (iteration client allPublications).
Proof.
  destruct (iteration_after_prompt client allPublications) as [rest [E Hrest]].
  rewrite E. apply preserves_bind; [apply preserves_askProductId | exact Hrest].
Qed.

Lemma preserves_while_true fuel (body : M Completion) :
  preserves R body -> preserves R (while_true fuel body).
Proof.
  intros Hbody. induction fuel as [|fuel IH]; simpl.
  - intros w. apply R_refl.
  - apply preserves_bind; [exact Hbody | intros [|]];
      [apply preserves_ret | exact IH].
Qed.

Lemma preserves_main_loop fuel client allPublications :
  preserves R (main_loop fuel client allPublications).
Proof. apply preserves_while_true, preserves_iteration. Qed.

Lemma preserves_loadConfig configPath JSON_parse JSON_stringify :
  preserves R (loadConfig configPath JSON_parse JSON_stringify).
Proof.
  unfold loadConfig.
  apply preserves_bind; [apply preserves_existsSync | intros [|]].
  - apply preserves_bind; [preserving | intros _].
    apply preserves_bind; [preserving | intros content].
    destruct (JSON_parse content); preserving.
  - apply preserves_bind; [apply preserves_askConfig | intros config].
    preserving.
Qed.

Lemma preserves_main configPath JSON_parse JSON_stringify fuel :
  preserves R (main configPath JSON_parse JSON_stringify fuel).
Proof.
  unfold main.
  apply preserves_bind; [apply preserves_loadConfig | intros config].
  cbv zeta.
  apply preserves_bind; [apply preserves_listPublications | intros ps].
  apply preserves_bind; [preserving | intros _].
  apply preserves_bind; [apply preserves_printPublications | intros _].
  apply preserves_main_loop.
Qed.

End Preservation.

Lemma extends_refl (w : World) : extends w w.
Proof. exists []. now rewrite app_nil_r. Qed.

Lemma extends_trans (a b c : World) : extends a b -> extends b c -> extends a c.
Proof.
  intros [e1 H1] [e2 H2]. exists (e1 ++ e2)%list.
  rewrite H2, H1. now rewrite app_assoc.
Qed.

Lemma extends_emit e (w : World) : extends w (emit e w).
Proof. now exists [e]. Qed.

Lemma extends_operator (session : list Prompts.Input) later (w : World) :
  operator w = session :: later -> extends w (with_operator later w).
Proof. intros _. exists []. simpl. now rewrite app_nil_r. Qed.

Lemma extends_server (r : Response) later (w : World) :
  server w = r :: later -> extends w (with_server later w).
Proof. intros _. exists []. simpl. now rewrite app_nil_r. Qed.

Lemma extends_readings (w : World) :
  extends w (with_readings (S (readings w)) w).
Proof. exists []. simpl. now rewrite app_nil_r. Qed.

(** The loop only adds to the trace. *)
Lemma main_loop_extends fuel client allPublications :
  preserves extends (main_loop fuel client allPublications).
Proof.
  apply preserves_main_loop;
    [ apply extends_refl | apply extends_trans | apply extends_emit
    | apply extends_operator | apply extends_server | apply extends_readings ].
Qed.

Lemma consumes_refl (w : World) : consumes w w.
Proof. unfold consumes. lia. Qed.

Lemma consumes_trans (a b c : World) :
  consumes a b -> consumes b c -> consumes a c.
Proof. unfold consumes. lia. Qed.

Lemma consumes_operator session later (w : World) :
  operator w = session :: later -> consumes w (with_operator later w).
Proof. unfold consumes. intros ->. simpl. lia. Qed.

Lemma consumes_emit e (w : World) : consumes w (emit e w).
Proof. unfold consumes. simpl. lia. Qed.

Lemma consumes_server (r : Response) later (w : World) :
  server w = r :: later -> consumes w (with_server later w).
Proof. unfold consumes. simpl. lia. Qed.

Lemma consumes_readings (w : World) :
  consumes w (with_readings (S (readings w)) w).
Proof. unfold consumes. simpl. lia. Qed.

(** ** The bound on the loop

    One pass through the body of the loop consumes a session of the
    operator, so a fuel above the number of sessions left is never used
    up, and the outcome then does not depend on the fuel. *)

Lemma fuel_free_ret {A} (a : A) : fuel_free (ret a).
Proof. intros w. discriminate. Qed.

Lemma fuel_free_throw {A} (e : JsError) : fuel_free (@throw A e).
Proof. intros w. discriminate. Qed.

Lemma fuel_free_bind {A B} (m : M A) (k : A -> M B) :
  fuel_free m -> (forall a, fuel_free (k a)) -> fuel_free (bind m k).
Proof.
  intros Hm Hk w. unfold bind. specialize (Hm w).
  destruct (m w) as [[a|e| |] w']; simpl in *;
    [apply Hk | discriminate | discriminate | congruence].
Qed.

Lemma fuel_free_console_log line : fuel_free (console_log line).
Proof. intros w. discriminate. Qed.

Lemma fuel_free_console_warn line errs : fuel_free (console_warn line errs).
Proof. intros w. discriminate. Qed.

Lemma fuel_free_prompts questions : fuel_free (prompts questions).
Proof. intros w. unfold prompts. destruct (operator w); discriminate. Qed.

Lemma fuel_free_request c req : fuel_free (request c req).
Proof.
  intros w. unfold request. destruct (server w) as [|[reason|data] later];
    discriminate.
Qed.

Lemma fuel_free_now_ISOString : fuel_free now_ISOString.
Proof. intros w. discriminate. Qed.

Lemma fuel_free_for_of {A} (xs : list A) (body : A -> M unit) :
  (forall x, fuel_free (body x)) -> fuel_free (for_of xs body).
Proof.
  intros Hbody. induction xs as [|x xs IH]; simpl.
  - apply fuel_free_ret.
  - apply fuel_free_bind; [apply Hbody | intros _; exact IH].
Qed.

Create HintDb fuel_free.
#[local] Hint Resolve fuel_free_ret fuel_free_throw fuel_free_console_log
  fuel_free_console_warn fuel_free_prompts fuel_free_request
  fuel_free_now_ISOString : fuel_free.

Ltac solve_fuel_free :=
  repeat first
    [ solve [auto with fuel_free]
    | apply fuel_free_for_of; intros ?
    | apply fuel_free_bind; [|intros ?]
    | match goal with
      | |- fuel_free (match ?x with _ => _ end) => destruct x
      end ].

Lemma fuel_free_iteration client allPublications :
  fuel_free (iteration client allPublications).
Proof.
  unfold iteration, askProductId, listProductPublications, printPublications,
    askPublicationGid, publishProduct.
  solve_fuel_free.
Qed.

(** A pass that returns has consumed a session. *)
Lemma iteration_consumes_session client allPublications (w w' : World)
    (c : Completion) :
  iteration client allPublications w = (Returned c, w') ->
  List.length (operator w') < List.length (operator w).
Proof.
  intros H.
  destruct (iteration_after_prompt consumes consumes_refl consumes_trans
              consumes_emit consumes_operator consumes_server consumes_readings
              client allPublications) as [rest [E Hrest]].
  rewrite E in H.
  destruct (operator w) as [|session later] eqn:Hop.
  - unfold bind, askProductId, bind, prompts in H. rewrite Hop in H.
    discriminate.
  - rewrite (bind_returned _ _ _ _ _ (askProductId_run w session later Hop)) in H.
    match type of H with
    | rest ?v ?w1 = _ => specialize (Hrest v w1)
    end.
    rewrite H in Hrest. unfold consumes in Hrest. simpl in *. lia.
Qed.

(** With more fuel than sessions left, the loop does not run out of it. *)
Lemma main_loop_enough_fuel client allPublications (fuel : nat) (w : World) :
  List.length (operator w) < fuel ->
  fst (main_loop fuel client allPublications w) <> OutOfFuel.
Proof.
  unfold main_loop. revert w. induction fuel as [|fuel IH]; intros w Hlen.
  - lia.
  - simpl. unfold bind.
    pose proof (fuel_free_iteration client allPublications w) as Hfree.
    destruct (iteration client allPublications w) as [[[|]|e| |] w'] eqn:E;
      simpl in *; try discriminate; try congruence.
    apply IH. apply iteration_consumes_session in E. lia.
Qed.

(** A run that did not run out of fuel is the run with any larger fuel. *)
Lemma main_loop_fuel_irrelevant client allPublications (fuel more : nat)
    (w : World) :
  fst (main_loop fuel client allPublications w) <> OutOfFuel ->
  main_loop (fuel + more) client allPublications w
  = main_loop fuel client allPublications w.
Proof.
  unfold main_loop. revert w. induction fuel as [|fuel IH]; intros w H.
  - simpl in H. congruence.
  - simpl in *. unfold bind in *.
    destruct (iteration client allPublications w) as [[[|]|e| |] w'];
      try reflexivity.
    now apply IH.
Qed.

(** ** Driver loop *)

(** [main] is the start-up followed by the loop. *)
Lemma main_enters_loop configPath JSON_parse JSON_stringify (fuel : nat)
    (w wa wb : World) (config : Config) (allPublications : list Publication) :
  loadConfig configPath JSON_parse JSON_stringify w = (Returned config, wa) ->
  listPublications (new_Client config) wa = (Returned allPublications, wb) ->
  main configPath JSON_parse JSON_stringify fuel w
  = main_loop fuel (new_Client config) allPublications
      (emits (ConsoleLog "Looking for all publications..."
              :: map ConsoleLog (printed "All publications" allPublications)) wb).
Proof.
  intros Hload Hlist. unfold main.
  rewrite (bind_returned _ _ _ _ _ Hload). cbv zeta.
  rewrite (bind_returned _ _ _ _ _ Hlist).
  unfold bind at 1, console_log at 1.
  unfold bind at 1. rewrite printPublications_run.
  now rewrite emits_emit.
Qed.

(** C2: whenever the product-id prompt returns [undefined] or the empty
    string, the loop ends there: it logs "Done!" and returns, so that
    after the prompt nothing is sent to the endpoint (the trace grows by
    the prompt and the log line only, and the responses the endpoint has in
    store are untouched), and [main], once it has entered the loop in that
    world, resolves normally. *)
Theorem main_loop_stops_without_product_id (fuel : nat) (client : Client)
    (allPublications : list Publication) (w w1 : World)
    (productId : option string) :
  askProductId w = (Returned productId, w1) ->
  productId = None \/ productId = Some EmptyString ->
  let w' := emit (ConsoleLog "Done!") w1 in
  let added := [Prompt [productIdQuestion]; ConsoleLog "Done!"] in
  main_loop (S fuel) client allPublications w = (Returned tt, w')
  /\ trace w' = (trace w ++ added)%list
  /\ existsb is_sent added = false
  /\ server w' = server w
  /\ (forall configPath JSON_parse JSON_stringify w0 wa wb config,
        loadConfig configPath JSON_parse JSON_stringify w0 = (Returned config, wa) ->
        client = new_Client config ->
        listPublications client wa = (Returned allPublications, wb) ->
        w = emits (ConsoleLog "Looking for all publications..."
                   :: map ConsoleLog (printed "All publications" allPublications)) wb ->
        main configPath JSON_parse JSON_stringify (S fuel) w0 = (Returned tt, w')).
Proof.
  intros Hask Hstop w' added.
  assert (Hloop : main_loop (S fuel) client allPublications w = (Returned tt, w')).
  { unfold main_loop. simpl. unfold iteration.
    unfold bind at 1. rewrite (bind_returned _ _ _ _ _ Hask).
    destruct Hstop as [-> | ->]; reflexivity. }
  destruct (askProductId_returned _ _ _ Hask) as [session [later [Hop ->]]].
  split; [exact Hloop|]. split; [|split; [|split]].
  - subst w'. simpl. now rewrite <- app_assoc.
  - reflexivity.
  - reflexivity.
  - intros configPath JSON_parse JSON_stringify w0 wa wb config Hload -> Hlist Hw.
    rewrite (main_enters_loop _ _ _ _ _ _ _ _ _ Hload Hlist), <- Hw.
    exact Hloop.
Qed.

Lemma main_loop_stops_without_product_id_witness :
  main_loop 1 acmeClient [onlineStore]
    (world no_files [[Prompts.Typed EmptyString]]
       [Resolved (product_with []); Resolved (publish_with [])])
  = (Returned tt,
     emits [Prompt [productIdQuestion]; ConsoleLog "Done!"]
       (world no_files []
          [Resolved (product_with []); Resolved (publish_with [])])).
Proof.
  apply (main_loop_stops_without_product_id 0 acmeClient [onlineStore]
           (world no_files [[Prompts.Typed EmptyString]]
              [Resolved (product_with []); Resolved (publish_with [])])
           (emit (Prompt [productIdQuestion])
              (world no_files []
                 [Resolved (product_with []); Resolved (publish_with [])]))
           (Some EmptyString)).
  - reflexivity.
  - right. reflexivity.
Defined.

Lemma bind_assoc {A B C} (m : M A) (k : A -> M B) (h : B -> M C) (w : World) :
  bind (bind m k) h w = bind m (fun a => bind (k a) h) w.
Proof. unfold bind. destruct (m w) as [[a|e| |] w']; reflexivity. Qed.

Lemma listProductPublications_returned (this : Client) (productId : string)
    (w w' : World) (ps : list Publication) :
  listProductPublications this productId w = (Returned ps, w') ->
  exists later,
    w' = with_server later
           (emit (Sent (gqlClient this)
                    (productPublicationsRequest
                       ("gid://shopify/Product/" ++ productId))) w).
Proof.
  unfold listProductPublications, bind, request.
  destruct (server w) as [|[reason|[c|[p|]|o]] later];
    intros H; try discriminate.
  exists later. injection H as _ <-. reflexivity.
Qed.

Lemma no_publish_in_logs (lines : list string) :
  existsb is_publish (map ConsoleLog lines) = false.
Proof. induction lines as [|l lines IH]; simpl; auto. Qed.

(** Each pass of the loop opens with the product-id prompt. *)
Lemma main_loop_opens_with_prompt (fuel : nat) (client : Client)
    (allPublications : list Publication) (w : World) :
  exists evs,
    trace (snd (main_loop (S fuel) client allPublications w))
    = (trace w ++ Prompt [productIdQuestion] :: evs)%list.
Proof.
  destruct (iteration_after_prompt extends extends_refl extends_trans
              extends_emit extends_operator extends_server extends_readings
              client allPublications) as [rest [E Hrest]].
  unfold main_loop. simpl. rewrite E, bind_assoc.
  destruct (operator w) as [|session later] eqn:Hop.
  - exists []. unfold bind, askProductId, bind, prompts. rewrite Hop. reflexivity.
  - rewrite (bind_returned _ _ _ _ _ (askProductId_run w session later Hop)).
    match goal with
    | |- context [bind (rest ?v) ?K ?w1] =>
        assert (Hext : preserves extends (bind (rest v) K))
    end.
    { apply preserves_bind; [apply extends_trans | apply Hrest |].
      intros [|]; [apply preserves_ret, extends_refl
                  | rewrite <- E;
                    apply (main_loop_extends fuel client allPublications)]. }
    match goal with
    | |- context [bind (rest ?v) ?K ?w1] => destruct (Hext w1) as [evs Hevs]
    end.
    exists evs. rewrite Hevs. simpl. now rewrite <- app_assoc.
Qed.

(** C3: in every pass of the loop in which the publication-choice prompt
    yields [undefined] (Skip), the pass logs "Skipping." and ends without
    calling the publish operation: what the pass adds to the trace is the
    product-id prompt, the product's query and its printout, the
    publication-choice prompt and that log line, with no publish request
    among them.  The loop then goes on with its next pass, which opens
    with the product-id prompt. *)
Theorem iteration_skip_publishes_nothing (client : Client)
    (allPublications : list Publication) (w w1 w2 w3 : World)
    (productId : string) (productPublications : list Publication) :
  askProductId w = (Returned (Some productId), w1) ->
  productId <> EmptyString ->
  listProductPublications client productId
    (emit (ConsoleLog ("Looking for publications for product " ++ productId ++ "..."))
       w1)
  = (Returned productPublications, w2) ->
  askPublicationGid allPublications
    (emits (map ConsoleLog
              (printed ("Publications for product " ++ productId)
                 productPublications)) w2)
  = (Returned None, w3) ->
  let w' := emit (ConsoleLog "Skipping.") w3 in
  let added :=
    ([Prompt [productIdQuestion];
      ConsoleLog ("Looking for publications for product " ++ productId ++ "...");
      Sent (gqlClient client)
        (productPublicationsRequest ("gid://shopify/Product/" ++ productId))]
     ++ map ConsoleLog
          (printed ("Publications for product " ++ productId) productPublications)
     ++ [Prompt [publicationGidQuestion allPublications];
         ConsoleLog "Skipping."])%list in
  iteration client allPublications w = (Returned Continue, w')
  /\ trace w' = (trace w ++ added)%list
  /\ existsb is_publish added = false
  /\ (forall fuel,
        main_loop (S fuel) client allPublications w
        = main_loop fuel client allPublications w')
  /\ (forall fuel, exists evs,
        trace (snd (main_loop (S fuel) client allPublications w'))
        = (trace w' ++ Prompt [productIdQuestion] :: evs)%list).
Proof.
  intros Hask Hne Hlist Hgid w' added.
  assert (Hit : iteration client allPublications w = (Returned Continue, w')).
  { unfold iteration.
    rewrite (bind_returned _ _ _ _ _ Hask).
    apply String.eqb_neq in Hne. rewrite Hne.
    unfold bind at 1, console_log at 1.
    rewrite (bind_returned _ _ _ _ _ Hlist).
    unfold bind at 1. rewrite printPublications_run.
    rewrite (bind_returned _ _ _ _ _ Hgid).
    reflexivity. }
  split; [exact Hit|].
  destruct (askProductId_returned _ _ _ Hask) as [s1 [l1 [Hop1 ->]]].
  destruct (listProductPublications_returned _ _ _ _ _ Hlist) as [l2 ->].
  destruct (askPublicationGid_returned _ _ _ _ Hgid) as [s3 [l3 [Hop3 ->]]].
  split; [|split; [|split]].
  - subst w' added. simpl. repeat rewrite <- app_assoc. reflexivity.
  - subst added. simpl. rewrite existsb_app, no_publish_in_logs. reflexivity.
  - intros fuel. unfold main_loop. simpl.
    now rewrite (bind_returned _ _ _ _ _ Hit).
  - intros fuel. apply main_loop_opens_with_prompt.
Qed.

Lemma iteration_skip_publishes_nothing_witness :
  iteration acmeClient [onlineStore]
    (world no_files [[Prompts.Typed "42"]; [Prompts.Picked 0]; []]
       [Resolved (product_with [onlineStore]); Resolved (publish_with [])])
  = (Returned Continue,
     emits
       ([Prompt [productIdQuestion];
         ConsoleLog "Looking for publications for product 42...";
         Sent (gqlClient acmeClient)
           (productPublicationsRequest "gid://shopify/Product/42")]
        ++ map ConsoleLog (printed "Publications for product 42" [onlineStore])
        ++ [Prompt [publicationGidQuestion [onlineStore]];
            ConsoleLog "Skipping."])
       (world no_files [[]] [Resolved (publish_with [])])).
Proof.
  apply (iteration_skip_publishes_nothing acmeClient [onlineStore]
           (world no_files [[Prompts.Typed "42"]; [Prompts.Picked 0]; []]
              [Resolved (product_with [onlineStore]); Resolved (publish_with [])])
           (emit (Prompt [productIdQuestion])
              (world no_files [[Prompts.Picked 0]; []]
                 [Resolved (product_with [onlineStore]);
                  Resolved (publish_with [])]))
           (emits [Prompt [productIdQuestion];
                   ConsoleLog "Looking for publications for product 42...";
                   Sent (gqlClient acmeClient)
                     (productPublicationsRequest "gid://shopify/Product/42")]
              (world no_files [[Prompts.Picked 0]; []]
                 [Resolved (publish_with [])]))
           (emits
              ([Prompt [productIdQuestion];
                ConsoleLog "Looking for publications for product 42...";
                Sent (gqlClient acmeClient)
                  (productPublicationsRequest "gid://shopify/Product/42")]
               ++ map ConsoleLog
                    (printed "Publications for product 42" [onlineStore])
               ++ [Prompt [publicationGidQuestion [onlineStore]]])
              (world no_files [[]] [Resolved (publish_with [])]))
           "42" [onlineStore]).
  - reflexivity.
  - discriminate.
  - reflexivity.
  - reflexivity.
Defined.

(** ** Config store *)

Section ConfigStore.

Variable configPath : string.
Variable JSON_parse : string -> option Config.
Variable JSON_stringify : Config -> string.

(** C6: whenever a config file that parses exists at the fixed path,
    [loadConfig] returns exactly what [JSON.parse] makes of its content,
    and it does not prompt: all it does is log the path and read the
    file, and the operator's sessions are left as they were. *)
Theorem loadConfig_existing_file (w : World) (content : string)
    (config : Config) :
  files w configPath = Some content ->
  JSON_parse content = Some config ->
  let added :=
    [ConsoleLog ("Using config from " ++ configPath ++ "...");
     ReadFile configPath] in
  loadConfig configPath JSON_parse JSON_stringify w
  = (Returned config, emits added w)
  /\ existsb is_prompt added = false
  /\ operator (emits added w) = operator w.
Proof.
  intros Hfile Hparse added.
  split; [|split; reflexivity].
  unfold loadConfig, bind, existsSync, console_log, readFile. simpl.
  rewrite Hfile. simpl. rewrite Hfile, Hparse.
  unfold ret, emit. now rewrite emits_emits.
Qed.

(** C7: whenever no config file exists at the fixed path, [loadConfig]
    prompts for the config exactly once, starts exactly one write, to the
    fixed path, of the JSON text of the object it collected, and returns
    that same object; when the operator answers both questions, the object
    holds the two fields [shopName] and [accessToken] with the answers. *)
Theorem loadConfig_absent_file (w : World) (session : list Prompts.Input)
    (later : list (list Prompts.Input)) :
  files w configPath = None ->
  operator w = session :: later ->
  let config := Prompts.ask configQuestions session [] in
  let added :=
    [Prompt configQuestions;
     ConsoleLog ("Writing config to " ++ configPath ++ ".");
     WriteFile configPath (JSON_stringify config)] in
  loadConfig configPath JSON_parse JSON_stringify w
  = (Returned config, with_operator later (emits added w))
  /\ filter is_prompt added = [Prompt configQuestions]
  /\ filter is_write added = [WriteFile configPath (JSON_stringify config)]
  /\ (forall shopName accessToken rest,
        session = Prompts.Typed shopName :: Prompts.Typed accessToken :: rest ->
        config = [("shopName", shopName); ("accessToken", accessToken)]).
Proof.
  intros Hfile Hop config added.
  split; [|split; [reflexivity | split; [reflexivity|]]].
  - subst added config.
    unfold loadConfig, bind, existsSync, askConfig, prompts, console_log,
      writeFile_unawaited.
    rewrite Hfile, Hop.
    generalize (Prompts.ask configQuestions session []). intros config.
    unfold ret, emit, emits, with_operator. simpl.
    now rewrite <- !app_assoc.
  - intros shopName accessToken rest ->. reflexivity.
Qed.

End ConfigStore.

Lemma loadConfig_existing_file_witness :
  ExampleHost.loadConfig (world acme_files [] [])
  = (Returned acme,
     emits [ConsoleLog "Using config from /opt/shopify-publish-demo/config.json...";
            ReadFile ExampleHost.configPath]
       (world acme_files [] [])).
Proof.
  apply (loadConfig_existing_file ExampleHost.configPath ExampleHost.JSON_parse
           ExampleHost.JSON_stringify (world acme_files [] [])
           (ExampleHost.JSON_stringify acme) acme).
  - reflexivity.
  - vm_compute. reflexivity.
Defined.

Lemma loadConfig_absent_file_witness :
  ExampleHost.loadConfig
    (world no_files [[Prompts.Typed "acme"; Prompts.Typed "tok"]] [])
  = (Returned acme,
     emits [Prompt configQuestions;
            ConsoleLog "Writing config to /opt/shopify-publish-demo/config.json.";
            WriteFile ExampleHost.configPath
              ("{" ++ LF
               ++ "  " ++ ExampleHost.quote "shopName" ++ ": "
               ++ ExampleHost.quote "acme" ++ "," ++ LF
               ++ "  " ++ ExampleHost.quote "accessToken" ++ ": "
               ++ ExampleHost.quote "tok" ++ LF
               ++ "}")]
       (world no_files [] [])).
Proof.
  apply (loadConfig_absent_file ExampleHost.configPath ExampleHost.JSON_parse
           ExampleHost.JSON_stringify
           (world no_files [[Prompts.Typed "acme"; Prompts.Typed "tok"]] [])
           [Prompts.Typed "acme"; Prompts.Typed "tok"] []).
  - reflexivity.
  - reflexivity.
Defined.

(** C5 does not hold of the code: when the operator cancels the config
    prompt, [askConfig] resolves to the answers collected so far.
    Cancelling at the first question gives the empty object, cancelling at
    the second an object with [shopName] only; neither has both fields, yet
    [loadConfig] writes the object to the config file and returns it, and
    [main] goes on to build the client from it and to send the first
    request. *)
Theorem askConfig_cancelled_is_partial :
  askConfig (world no_files [[]] [])
  = (Returned [], emit (Prompt configQuestions) (world no_files [] []))
  /\ askConfig (world no_files [[Prompts.Typed "acme"]] [])
     = (Returned [("shopName", "acme")],
        emit (Prompt configQuestions) (world no_files [] []))
  /\ ~ has_both_fields []
  /\ ~ has_both_fields [("shopName", "acme")]
  /\ ExampleHost.loadConfig (world no_files [[]] [])
     = (Returned [],
        emits [Prompt configQuestions;
               ConsoleLog "Writing config to /opt/shopify-publish-demo/config.json.";
               WriteFile ExampleHost.configPath "{}"]
          (world no_files [] []))
  /\ ExampleHost.main 1 (world no_files [[]] [])
     = (Pending,
        emits [Prompt configQuestions;
               ConsoleLog "Writing config to /opt/shopify-publish-demo/config.json.";
               WriteFile ExampleHost.configPath "{}";
               Sent {| url := "https://undefined.myshopify.com/admin/api/2021-07/graphql.json";
                       headers := [("X-Shopify-Access-Token", None)] |}
                 publicationsRequest]
          (world no_files [] [])).
Proof.
  repeat split; try reflexivity; unfold has_both_fields; simpl; intros [H1 H2];
    congruence.
Qed.

(** ** Whole runs *)

Lemma fuel_free_existsSync path : fuel_free (existsSync path).
Proof. intros w. unfold existsSync. destruct (files w path); discriminate. Qed.

Lemma fuel_free_readFile path : fuel_free (readFile path).
Proof. intros w. unfold readFile. destruct (files w path); discriminate. Qed.

Lemma fuel_free_writeFile_unawaited path content :
  fuel_free (writeFile_unawaited path content).
Proof. intros w. discriminate. Qed.

#[local] Hint Resolve fuel_free_existsSync fuel_free_readFile
  fuel_free_writeFile_unawaited : fuel_free.

Lemma fuel_free_loadConfig configPath JSON_parse JSON_stringify :
  fuel_free (loadConfig configPath JSON_parse JSON_stringify).
Proof. unfold loadConfig, askConfig. solve_fuel_free. Qed.

Lemma fuel_free_listPublications this : fuel_free (listPublications this).
Proof. unfold listPublications. solve_fuel_free. Qed.

(** With more fuel than the operator has sessions, [main] does not stop
    for lack of fuel: it returns, throws, or waits for an answer. *)
Lemma main_enough_fuel configPath JSON_parse JSON_stringify (fuel : nat)
    (w : World) :
  List.length (operator w) < fuel ->
  fst (main configPath JSON_parse JSON_stringify fuel w) <> OutOfFuel.
Proof.
  intros Hlen.
  pose proof (fuel_free_loadConfig configPath JSON_parse JSON_stringify w) as Fa.
  pose proof (preserves_loadConfig consumes consumes_refl consumes_trans
                consumes_emit consumes_operator
                configPath JSON_parse JSON_stringify w) as Ca.
  destruct (loadConfig configPath JSON_parse JSON_stringify w)
    as [[config|e| |] wa] eqn:Ea; simpl in Fa, Ca;
    try (unfold main; rewrite (bind_thrown _ _ _ _ _ Ea); discriminate);
    try (unfold main, bind; rewrite Ea; simpl; congruence).
  pose proof (fuel_free_listPublications (new_Client config) wa) as Fb.
  pose proof (preserves_listPublications consumes consumes_refl consumes_trans
                consumes_emit consumes_server (new_Client config) wa) as Cb.
  destruct (listPublications (new_Client config) wa)
    as [[ps|e| |] wb] eqn:Eb; simpl in Fb, Cb;
    try (unfold main, bind; rewrite Ea; cbv zeta; rewrite Eb; simpl; congruence).
  rewrite (main_enters_loop _ _ _ _ _ _ _ _ _ Ea Eb).
  apply main_loop_enough_fuel.
  unfold consumes in *. simpl. lia.
Qed.

(** The specification's first scenario: no config file, the operator
    enters "acme" and "tok", the endpoint lists the one publication "Online
    Store", and the operator then leaves at the product-id prompt. *)
Example run_first_start :
  ExampleHost.main 1
    (world no_files
       [[Prompts.Typed "acme"; Prompts.Typed "tok"]; []]
       [Resolved (publications_of [onlineStore])])
  = (Returned tt,
     emits
       [Prompt configQuestions;
        ConsoleLog "Writing config to /opt/shopify-publish-demo/config.json.";
        WriteFile ExampleHost.configPath (ExampleHost.JSON_stringify acme);
        Sent (gqlClient acmeClient) publicationsRequest;
        ConsoleLog "Looking for all publications...";
        ConsoleLog EmptyString;
        ConsoleLog ("All publications (1)" ++ LF);
        ConsoleLog "* Online Store (gid://shopify/Publication/1)";
        ConsoleLog EmptyString;
        Prompt [productIdQuestion];
        ConsoleLog "Done!"]
       (world no_files [] [])).
Proof. reflexivity. Qed.

(** The specification's last scenario: the publish mutation answers with a
    user error, the error is logged and the run ends with the rejection. *)
Example run_publish_rejected :
  ExampleHost.main 2
    (world acme_files
       [[Prompts.Typed "42"]; [Prompts.Picked 1]; []]
       [Resolved (publications_of [onlineStore]);
        Resolved (product_with []);
        Resolved (publish_with [{| message := "already published" |}])])
  = (Thrown (Error "Unable to publish"),
     emits
       [ConsoleLog "Using config from /opt/shopify-publish-demo/config.json...";
        ReadFile ExampleHost.configPath;
        Sent (gqlClient acmeClient) publicationsRequest;
        ConsoleLog "Looking for all publications...";
        ConsoleLog EmptyString;
        ConsoleLog ("All publications (1)" ++ LF);
        ConsoleLog "* Online Store (gid://shopify/Publication/1)";
        ConsoleLog EmptyString;
        Prompt [productIdQuestion];
        ConsoleLog "Looking for publications for product 42...";
        Sent (gqlClient acmeClient)
          (productPublicationsRequest "gid://shopify/Product/42");
        ConsoleLog EmptyString;
        ConsoleLog ("Publications for product 42 (0)" ++ LF);
        ConsoleLog EmptyString;
        Prompt [publicationGidQuestion [onlineStore]];
        ConsoleLog "Publish product 42 to gid://shopify/Publication/1...";
        Sent (gqlClient acmeClient)
          (publishRequest "gid://shopify/Product/42"
             "gid://shopify/Publication/1" "2021-09-01T12:00:00.000Z");
        ConsoleWarn "Got errors while publishing"
          [{| message := "already published" |}]]
       (with_readings 1 (world acme_files [[]] []))).
Proof. vm_compute. reflexivity. Qed.


(** * Further properties of the program *)

(** ** What a computation adds to the trace *)

Lemma does_at_ret {A} (a : A) (P : Event -> Prop) (Q : A -> Prop) (w : World) :
  Q a -> does_at (ret a) P Q w.
Proof.
  intros HQ. exists []. simpl. rewrite app_nil_r.
  split; [reflexivity|]. split; [constructor|].
  intros a' H. injection H as <-. exact HQ.
Qed.

Lemma does_at_throw {A} (e : JsError) (P : Event -> Prop) (Q : A -> Prop)
    (w : World) :
  does_at (@throw A e) P Q w.
Proof.
  exists []. simpl. rewrite app_nil_r.
  split; [reflexivity|]. split; [constructor | discriminate].
Qed.

Lemma does_at_bind {A B} (m : M A) (k : A -> M B) (P : Event -> Prop)
    (Q : A -> Prop) (Q' : B -> Prop) (w : World) :
  does_at m P Q w ->
  (forall a w1, m w = (Returned a, w1) -> Q a -> does_at (k a) P Q' w1) ->
  does_at (bind m k) P Q' w.
Proof.
  intros [e1 [T1 [F1 Q1]]] Hk. unfold does_at at 1. unfold bind.
  destruct (m w) as [[a|e| |] w1]; simpl in T1, Q1.
  - destruct (Hk a w1 eq_refl (Q1 a eq_refl)) as [e2 [T2 [F2 Q2]]].
    exists (e1 ++ e2)%list. rewrite T2, T1, <- app_assoc.
    split; [reflexivity|]. split; [apply Forall_app; now split | exact Q2].
  - exists e1. split; [exact T1|]. split; [exact F1 | discriminate].
  - exists e1. split; [exact T1|]. split; [exact F1 | discriminate].
  - exists e1. split; [exact T1|]. split; [exact F1 | discriminate].
Qed.

Lemma does_bind {A B} (m : M A) (k : A -> M B) (P : Event -> Prop)
    (Q : A -> Prop) (Q' : B -> Prop) :
  does m P Q -> (forall a, Q a -> does (k a) P Q') -> does (bind m k) P Q'.
Proof.
  intros Hm Hk w. apply does_at_bind with Q; [apply Hm|].
  intros a w1 _ HQ. now apply Hk.
Qed.

Lemma does_ret {A} (a : A) (P : Event -> Prop) (Q : A -> Prop) :
  Q a -> does (ret a) P Q.
Proof. intros HQ w. now apply does_at_ret. Qed.

Lemma does_throw {A} (e : JsError) (P : Event -> Prop) (Q : A -> Prop) :
  does (@throw A e) P Q.
Proof. intros w. apply does_at_throw. Qed.

Lemma does_weaken {A} (m : M A) (P P' : Event -> Prop) (Q Q' : A -> Prop) :
  (forall e, P e -> P' e) -> (forall a, Q a -> Q' a) ->
  does m P Q -> does m P' Q'.
Proof.
  intros HP HQ Hm w. destruct (Hm w) as [evs [T [F Hq]]].
  exists evs. split; [exact T|]. split.
  - eapply Forall_impl; [exact HP | exact F].
  - intros a H. apply HQ, Hq, H.
Qed.

(** A primitive that adds the one event [e]. *)
Lemma does_one_event {A} (m : M A) (e : Event) (P : Event -> Prop) :
  P e -> (forall w, trace (snd (m w)) = (trace w ++ [e])%list) ->
  does m P anything.
Proof.
  intros HP Hm w. exists [e]. split; [apply Hm|].
  split; [now constructor | intros; exact I].
Qed.

Lemma does_console_log line (P : Event -> Prop) :
  P (ConsoleLog line) -> does (console_log line) P anything.
Proof. intros HP. apply does_one_event with (ConsoleLog line); auto. Qed.

Lemma does_console_warn line errs (P : Event -> Prop) :
  P (ConsoleWarn line errs) -> does (console_warn line errs) P anything.
Proof. intros HP. apply does_one_event with (ConsoleWarn line errs); auto. Qed.

Lemma does_prompts questions (P : Event -> Prop) :
  P (Prompt questions) -> does (prompts questions) P anything.
Proof.
  intros HP. apply does_one_event with (Prompt questions); [exact HP|].
  intros w. unfold prompts. destruct (operator w); reflexivity.
Qed.

Lemma does_request c req (P : Event -> Prop) :
  P (Sent c req) -> does (request c req) P anything.
Proof.
  intros HP. apply does_one_event with (Sent c req); [exact HP|].
  intros w. unfold request. destruct (server w) as [|[reason|data] later];
    reflexivity.
Qed.

Lemma does_now_ISOString (P : Event -> Prop) : does now_ISOString P anything.
Proof.
  intros w. exists []. simpl. rewrite app_nil_r.
  split; [reflexivity|]. split; [constructor | intros; exact I].
Qed.

Lemma does_for_of {A} (xs : list A) (body : A -> M unit) (P : Event -> Prop) :
  (forall x, does (body x) P anything) -> does (for_of xs body) P anything.
Proof.
  intros Hbody. induction xs as [|x xs IH]; simpl.
  - now apply does_ret.
  - apply does_bind with anything; [apply Hbody | intros _ _; exact IH].
Qed.

Lemma does_while_true (fuel : nat) (body : M Completion) (P : Event -> Prop) :
  does body P anything -> does (while_true fuel body) P anything.
Proof.
  intros Hbody. induction fuel as [|fuel IH]; simpl.
  - intros w. exists []. simpl. rewrite app_nil_r.
    split; [reflexivity|]. split; [constructor | intros; exact I].
  - apply does_bind with anything; [exact Hbody|].
    intros [|] _; [now apply does_ret | exact IH].
Qed.

Lemma does_printPublications label ps (P : Event -> Prop) :
  (forall line, P (ConsoleLog line)) ->
  does (printPublications label ps) P anything.
Proof.
  intros HP. unfold printPublications.
  apply does_bind with anything; [now apply does_console_log | intros _ _].
  apply does_bind with anything; [now apply does_console_log | intros _ _].
  apply does_bind with anything; [|intros _ _; now apply does_console_log].
  apply does_for_of. intros p. now apply does_console_log.
Qed.

Lemma does_strengthen {A} (m : M A) (P : Event -> Prop) (Q Q' : A -> Prop) :
  does m P Q -> (forall w a, fst (m w) = Returned a -> Q' a) -> does m P Q'.
Proof.
  intros Hm HQ w. destruct (Hm w) as [evs [T [F _]]].
  exists evs. split; [exact T|]. split; [exact F | apply HQ].
Qed.

(** ** The publication-choice prompt hands out gids of the menu only *)

Lemma selection_listed (pubs : list Publication) (session : list Prompts.Input)
    (g : string) :
  selection pubs session = Some g ->
  g = EmptyString
  \/ exists i p rest,
       session = Prompts.Picked (S i) :: rest
       /\ nth_error pubs i = Some p /\ gid p = g.
Proof.
  destruct session as [|[line|[|i]] rest]; simpl; try discriminate.
  - intros H. left. injection H as <-. reflexivity.
  - unfold Prompts.submitted. simpl. unfold pubChoices.
    rewrite nth_error_map.
    destruct (nth_error pubs i) as [p|] eqn:Hnth; simpl; [|discriminate].
    intros H. injection H as <-. right. exists i, p, rest. auto.
Qed.

Lemma askPublicationGid_some (pubs : list Publication) (w w' : World)
    (g : string) :
  askPublicationGid pubs w = (Returned (Some g), w') ->
  g <> EmptyString
  /\ exists i p rest later,
       operator w = (Prompts.Picked (S i) :: rest) :: later
       /\ nth_error pubs i = Some p /\ gid p = g.
Proof.
  intros H. destruct (operator w) as [|session later] eqn:Hop.
  - unfold askPublicationGid, bind, prompts in H. rewrite Hop in H. discriminate.
  - rewrite (askPublicationGid_run pubs w session later Hop) in H.
    destruct (strict_eq (selection pubs session) EmptyString) eqn:E;
      [discriminate|].
    injection H as Hsel _.
    assert (Hne : g <> EmptyString).
    { intros ->. rewrite Hsel in E. simpl in E. discriminate. }
    split; [exact Hne|].
    destruct (selection_listed pubs session g Hsel)
      as [-> | [i [p [rest [-> [Hnth Hg]]]]]]; [contradiction|].
    exists i, p, rest, later. auto.
Qed.

(** Whenever [askPublicationGid] returns a gid, the gid is not the empty
    string and it is the gid of the publication of the list that the
    operator picked: the choice under the cursor, Skip being the first
    choice. *)
Theorem askPublicationGid_returns_listed_gid (pubs : list Publication)
    (w w' : World) (g : string) :
  askPublicationGid pubs w = (Returned (Some g), w') ->
  g <> EmptyString
  /\ exists i p rest later,
       operator w = (Prompts.Picked (S i) :: rest) :: later
       /\ nth_error pubs i = Some p /\ gid p = g
       /\ w' = with_operator later
                 (emit (Prompt [publicationGidQuestion pubs]) w).
Proof.
  intros H.
  destruct (askPublicationGid_some pubs w w' g H)
    as [Hne [i [p [rest [later [Hop [Hnth Hg]]]]]]].
  split; [exact Hne|]. exists i, p, rest, later.
  repeat split; try assumption.
  rewrite (askPublicationGid_run pubs w _ later Hop) in H.
  destruct (strict_eq _ _) in H; congruence.
Qed.

Lemma askPublicationGid_returns_listed_gid_witness :
  gid pointOfSale <> EmptyString
  /\ exists i p rest later,
       operator (world no_files [[Prompts.Picked 2]; []] [])
       = (Prompts.Picked (S i) :: rest) :: later
       /\ nth_error [onlineStore; pointOfSale] i = Some p
       /\ gid p = gid pointOfSale
       /\ emit (Prompt [publicationGidQuestion [onlineStore; pointOfSale]])
            (world no_files [[]] [])
          = with_operator later
              (emit (Prompt [publicationGidQuestion [onlineStore; pointOfSale]])
                 (world no_files [[Prompts.Picked 2]; []] [])).
Proof.
  apply (askPublicationGid_returns_listed_gid [onlineStore; pointOfSale]
           (world no_files [[Prompts.Picked 2]; []] [])
           (emit (Prompt [publicationGidQuestion [onlineStore; pointOfSale]])
              (world no_files [[]] []))
           (gid pointOfSale)).
  reflexivity.
Defined.

Lemma does_askPublicationGid (pubs : list Publication) (P : Event -> Prop) :
  P (Prompt [publicationGidQuestion pubs]) ->
  does (askPublicationGid pubs) P
    (fun r => forall g, r = Some g -> listed_gid pubs g).
Proof.
  intros HP. apply does_strengthen with anything.
  - unfold askPublicationGid.
    apply does_bind with anything; [now apply does_prompts | intros answers _].
    destruct (strict_eq _ _); now apply does_ret.
  - intros w r Hr g ->.
    destruct (askPublicationGid pubs w) as [o w'] eqn:E. simpl in Hr. subst o.
    destruct (askPublicationGid_some pubs w w' g E)
      as [Hne [i [p [rest [later [_ [Hnth Hg]]]]]]].
    split; [exact Hne|]. exists p. split; [|exact Hg].
    now apply nth_error_In with i.
Qed.

(** ** What a pass of the loop may do *)

Lemma does_listProductPublications client (productId : string)
    (P : Event -> Prop) :
  P (Sent (gqlClient client)
       (productPublicationsRequest ("gid://shopify/Product/" ++ productId))) ->
  does (listProductPublications client productId) P anything.
Proof.
  intros HP. unfold listProductPublications.
  apply does_bind with anything; [now apply does_request | intros r _].
  destruct r as [c|[p|]|o]; try apply does_throw. now apply does_ret.
Qed.

Lemma does_publishProduct client (productId publicationGid : string)
    (P : Event -> Prop) :
  (forall publishDate,
     P (Sent (gqlClient client)
          (publishRequest ("gid://shopify/Product/" ++ productId)
             publicationGid publishDate))) ->
  (forall line errs, P (ConsoleWarn line errs)) ->
  does (publishProduct client productId publicationGid) P anything.
Proof.
  intros HP HW. unfold publishProduct.
  apply does_bind with anything; [apply does_now_ISOString | intros date _].
  apply does_bind with anything; [now apply does_request | intros r _].
  destruct r as [c|p|[payload|]]; try apply does_throw.
  destruct (Nat.ltb 0 (List.length (userErrors payload))).
  - apply does_bind with anything; [now apply does_console_warn | intros _ _].
    apply does_throw.
  - now apply does_ret.
Qed.

Lemma does_iteration client (allPublications : list Publication) :
  does (iteration client allPublications)
    (loop_event client allPublications) anything.
Proof.
  unfold iteration.
  apply does_bind with anything.
  { unfold askProductId.
    apply does_bind with anything;
      [apply does_prompts; left; reflexivity | intros answers _].
    now apply does_ret. }
  intros [productId|] _.
  2: { apply does_bind with anything;
         [now apply does_console_log | intros _ _; now apply does_ret]. }
  destruct (String.eqb productId EmptyString) eqn:E.
  { apply does_bind with anything;
      [now apply does_console_log | intros _ _; now apply does_ret]. }
  apply String.eqb_neq in E.
  apply does_bind with anything; [now apply does_console_log | intros _ _].
  apply does_bind with anything.
  { apply does_listProductPublications. split; [reflexivity|].
    exists productId. split; [exact E | left; reflexivity]. }
  intros ps _.
  apply does_bind with anything;
    [apply does_printPublications; intros; exact I | intros _ _].
  apply does_bind with (fun r => forall g, r = Some g ->
                                   listed_gid allPublications g).
  { apply does_askPublicationGid. right. reflexivity. }
  intros [g|] Hg.
  2: { apply does_bind with anything;
         [now apply does_console_log | intros _ _; now apply does_ret]. }
  apply does_bind with anything; [now apply does_console_log | intros _ _].
  apply does_bind with anything; [|intros _ _; now apply does_ret].
  apply does_publishProduct; [|intros; exact I].
  intros date. split; [reflexivity|].
  exists productId. split; [exact E|]. right.
  exists g, date. split; [now apply Hg | reflexivity].
Qed.

Lemma does_main_loop (fuel : nat) client (allPublications : list Publication) :
  does (main_loop fuel client allPublications)
    (loop_event client allPublications) anything.
Proof. apply does_while_true, does_iteration. Qed.

(** In every run of the loop, from any world and for any number of
    passes, each publish request goes to the client's endpoint and names a
    product id that is not empty and a publication gid that is not empty
    and is the gid of one of the publications fetched at start-up. *)
Theorem main_loop_publishes_from_menu (fuel : nat) (client : Client)
    (allPublications : list Publication) (w : World) :
  exists evs,
    trace (snd (main_loop fuel client allPublications w)) = (trace w ++ evs)%list
    /\ forall to req,
         In (Sent to req) evs -> operation req = PublishMutation ->
         to = gqlClient client
         /\ exists productId publicationGid publishDate,
              productId <> EmptyString
              /\ publicationGid <> EmptyString
              /\ (exists p, In p allPublications /\ gid p = publicationGid)
              /\ variables req
                 = [("productGid", "gid://shopify/Product/" ++ productId);
                    ("publicationGid", publicationGid);
                    ("publishDate", publishDate)].
Proof.
  destruct (does_main_loop fuel client allPublications w) as [evs [T [F _]]].
  exists evs. split; [exact T|].
  intros to req Hin Hop.
  rewrite Forall_forall in F. specialize (F _ Hin). simpl in F.
  destruct F as [Hto [productId [Hne [Hreq | [g [date [[Hg Hp] Hreq]]]]]]];
    subst req.
  - discriminate.
  - split; [exact Hto|]. exists productId, g, date. auto.
Qed.

(** In every run of the loop, no file is read or written, every request
    goes to the client's endpoint, and none of them asks again for the list
    of all publications: the list fetched at start-up is the one in use to
    the end. *)
Theorem main_loop_leaves_files_and_list_alone (fuel : nat) (client : Client)
    (allPublications : list Publication) (w : World) :
  exists evs,
    trace (snd (main_loop fuel client allPublications w)) = (trace w ++ evs)%list
    /\ existsb is_file_event evs = false
    /\ forall to req,
         In (Sent to req) evs ->
         to = gqlClient client
         /\ forall first, operation req <> PublicationsQuery first.
Proof.
  destruct (does_main_loop fuel client allPublications w) as [evs [T [F _]]].
  exists evs. split; [exact T|]. split.
  - clear T. induction F as [|e evs He _ IH]; [reflexivity|].
    simpl. rewrite IH. destruct e; simpl in *; try reflexivity; contradiction.
  - intros to req Hin. rewrite Forall_forall in F. specialize (F _ Hin).
    simpl in F.
    destruct F as [Hto [productId [_ [Hreq | [g [date [_ Hreq]]]]]]];
      subst req; (split; [exact Hto | intros first; discriminate]).
Qed.

(** In every run of the loop, the operator is only ever shown two
    prompts: the product-id question, and the menu made of Skip followed by
    one choice per publication fetched at start-up, the same menu in every
    pass. *)
Theorem main_loop_prompts (fuel : nat) (client : Client)
    (allPublications : list Publication) (w : World) :
  exists evs,
    trace (snd (main_loop fuel client allPublications w)) = (trace w ++ evs)%list
    /\ forall questions,
         In (Prompt questions) evs ->
         questions = [productIdQuestion]
         \/ (questions = [publicationGidQuestion allPublications]
             /\ Prompts.choices (publicationGidQuestion allPublications)
                = skipChoice
                  :: map (fun pub => {| Prompts.title := name pub;
                                        Prompts.value := gid pub |})
                       allPublications).
Proof.
  destruct (does_main_loop fuel client allPublications w) as [evs [T [F _]]].
  exists evs. split; [exact T|].
  intros questions Hin. rewrite Forall_forall in F. specialize (F _ Hin).
  simpl in F. destruct F as [-> | ->]; [left | right]; auto.
Qed.

(** ** The other outcomes of the API client *)

(** [listPublications] sends the one query for the first 20 publications,
    with no variables, and the response decides the outcome: a rejected
    request is rethrown as it is, a response with the list gives the nodes
    of its edges, one per edge and in response order (none for no edges),
    and a response of another shape fails on reading [edges]. *)
Theorem listPublications_outcomes (this : Client) (w : World) (r : Response)
    (later : list Response) :
  server w = r :: later ->
  let sent :=
    Sent (gqlClient this)
      {| operation := PublicationsQuery 20; variables := [] |} in
  snd (listPublications this w) = with_server later (emit sent w)
  /\ (forall reason, r = Rejected reason ->
        fst (listPublications this w) = Thrown (ClientError reason))
  /\ (forall publications, r = Resolved (DataPublications publications) ->
        fst (listPublications this w)
        = Returned (map node (edges publications))
        /\ List.length (map node (edges publications))
           = List.length (edges publications)
        /\ forall i e, nth_error (edges publications) i = Some e ->
                       nth_error (map node (edges publications)) i
                       = Some (node e))
  /\ (forall data, r = Resolved data ->
        (forall publications, data <> DataPublications publications) ->
        fst (listPublications this w) = Thrown (TypeError "edges")).
Proof.
  intros Hserver sent.
  unfold listPublications, bind, request. rewrite Hserver.
  split; [|split; [|split]].
  - destruct r as [reason | [c | p | o]]; reflexivity.
  - intros reason ->. reflexivity.
  - intros publications ->. split; [reflexivity|].
    split; [apply length_map|].
    intros i e H. now rewrite nth_error_map, H.
  - intros data -> Hshape. destruct data as [c | p | o]; try reflexivity.
    now destruct (Hshape c).
Qed.

Lemma listPublications_outcomes_witness :
  fst (listPublications acmeClient
         (world no_files [] [Resolved (publications_of [onlineStore; pointOfSale])]))
  = Returned [onlineStore; pointOfSale].
Proof.
  pose proof (listPublications_outcomes acmeClient
    (world no_files [] [Resolved (publications_of [onlineStore; pointOfSale])])
    (Resolved (publications_of [onlineStore; pointOfSale])) [] eq_refl)
    as [_ [_ [Hok _]]].
  apply (Hok {| edges := map (fun p => {| node := p |})
                          [onlineStore; pointOfSale] |}).
  reflexivity.
Defined.

(** Whatever the endpoint answers, [publishProduct] reads the clock once
    and sends one publish request, carrying the product's identifier, the
    publication gid as given and the instant just read as the publish date.
    A rejected request is rethrown as it is; a response without a payload,
    or of another shape, fails on reading [userErrors]; in both cases
    nothing is logged. *)
Theorem publishProduct_failures (this : Client)
    (productId publicationGid : string) (w : World) (r : Response)
    (later : list Response) :
  server w = r :: later ->
  let sent :=
    Sent (gqlClient this)
      {| operation := PublishMutation;
         variables := [("productGid", "gid://shopify/Product/" ++ productId);
                       ("publicationGid", publicationGid);
                       ("publishDate", clock w (readings w))] |} in
  let w' := with_server later (emit sent (with_readings (S (readings w)) w)) in
  (exists evs,
     trace (snd (publishProduct this productId publicationGid w))
     = (trace w ++ sent :: evs)%list
     /\ existsb is_sent evs = false)
  /\ readings (snd (publishProduct this productId publicationGid w))
     = S (readings w)
  /\ (forall reason, r = Rejected reason ->
        publishProduct this productId publicationGid w
        = (Thrown (ClientError reason), w'))
  /\ (forall data, r = Resolved data ->
        (forall payload, data <> DataPublish (Some payload)) ->
        publishProduct this productId publicationGid w
        = (Thrown (TypeError "userErrors"), w')).
Proof.
  intros Hserver sent w'.
  unfold publishProduct, bind, now_ISOString, request. simpl.
  rewrite Hserver.
  split; [|split; [|split]].
  - destruct r as [reason | [c | p | [payload|]]];
      try (exists []; split; reflexivity).
    destruct (userErrors payload) as [|e errs]; simpl.
    + exists []. split; reflexivity.
    + exists [ConsoleWarn "Got errors while publishing" (e :: errs)].
      split; [|reflexivity]. simpl. now rewrite <- app_assoc.
  - destruct r as [reason | [c | p | [payload|]]]; try reflexivity.
    destruct (userErrors payload); reflexivity.
  - intros reason ->. reflexivity.
  - intros data -> Hshape.
    destruct data as [c | p | [payload|]]; try reflexivity.
    now destruct (Hshape payload).
Qed.

Lemma publishProduct_failures_witness :
  publishProduct acmeClient "42" (gid onlineStore)
    (world no_files [] [Resolved (DataPublish None)])
  = (Thrown (TypeError "userErrors"),
     emit (Sent (gqlClient acmeClient)
             (publishRequest "gid://shopify/Product/42" (gid onlineStore)
                (noon 0)))
       (with_readings 1 (world no_files [] []))).
Proof.
  pose proof (publishProduct_failures acmeClient "42" (gid onlineStore)
    (world no_files [] [Resolved (DataPublish None)])
    (Resolved (DataPublish None)) [] eq_refl) as [_ [_ [_ Hshape]]].
  apply (Hshape (DataPublish None)); [reflexivity | discriminate].
Defined.

(** ** The publish branch of the loop *)

Lemma publishProduct_run (this : Client) (productId publicationGid : string)
    (w : World) (payload : PublishPayload) (later : list Response) :
  server w = Resolved (DataPublish (Some payload)) :: later ->
  let w' :=
    with_server later
      (emit (Sent (gqlClient this)
               (publishRequest ("gid://shopify/Product/" ++ productId)
                  publicationGid (clock w (readings w))))
         (with_readings (S (readings w)) w)) in
  publishProduct this productId publicationGid w
  = if Nat.ltb 0 (List.length (userErrors payload))
    then (Thrown (Error "Unable to publish"),
          emit (ConsoleWarn "Got errors while publishing" (userErrors payload)) w')
    else (Returned tt, w').
Proof.
  intros Hserver w'.
  unfold publishProduct, bind, now_ISOString, request. simpl.
  rewrite Hserver.
  destruct (Nat.ltb 0 (List.length (userErrors payload))); reflexivity.
Qed.

Lemma publishProduct_keeps_operator (this : Client)
    (productId publicationGid : string) (w : World) :
  operator (snd (publishProduct this productId publicationGid w)) = operator w.
Proof.
  unfold publishProduct, bind, now_ISOString, request. simpl.
  destruct (server w) as [|[reason | [c | p | [payload|]]] later];
    try reflexivity.
  destruct (Nat.ltb 0 (List.length (userErrors payload))); reflexivity.
Qed.

(** The start of a pass, up to the answer of the publication-choice
    prompt. *)
Lemma iteration_up_to_choice (client : Client)
    (allPublications : list Publication) (w w1 w2 w3 : World)
    (productId : string) (productPublications : list Publication)
    (choice : option string) :
  askProductId w = (Returned (Some productId), w1) ->
  productId <> EmptyString ->
  listProductPublications client productId
    (emit (ConsoleLog ("Looking for publications for product " ++ productId ++ "..."))
       w1)
  = (Returned productPublications, w2) ->
  askPublicationGid allPublications
    (emits (map ConsoleLog
              (printed ("Publications for product " ++ productId)
                 productPublications)) w2)
  = (Returned choice, w3) ->
  iteration client allPublications w
  = match choice with
    | None => (console_log "Skipping." ;; ret Continue) w3
    | Some publicationGid =>
        (console_log ("Publish product " ++ productId ++ " to "
                      ++ publicationGid ++ "...") ;;
         publishProduct client productId publicationGid ;;
         ret Continue) w3
    end
  /\ trace w3
     = (trace w
        ++ [Prompt [productIdQuestion];
            ConsoleLog ("Looking for publications for product " ++ productId ++ "...");
            Sent (gqlClient client)
              (productPublicationsRequest ("gid://shopify/Product/" ++ productId))]
        ++ map ConsoleLog
             (printed ("Publications for product " ++ productId)
                productPublications)
        ++ [Prompt [publicationGidQuestion allPublications]])%list
  /\ clock w3 = clock w /\ readings w3 = readings w.
Proof.
  intros Hask Hne Hlist Hgid.
  split.
  - unfold iteration.
    rewrite (bind_returned _ _ _ _ _ Hask).
    apply String.eqb_neq in Hne. rewrite Hne.
    unfold bind at 1, console_log at 1.
    rewrite (bind_returned _ _ _ _ _ Hlist).
    unfold bind at 1. rewrite printPublications_run.
    rewrite (bind_returned _ _ _ _ _ Hgid).
    destruct choice; reflexivity.
  - destruct (askProductId_returned _ _ _ Hask) as [s1 [l1 [Hop1 ->]]].
    destruct (listProductPublications_returned _ _ _ _ _ Hlist) as [l2 ->].
    destruct (askPublicationGid_returned _ _ _ _ Hgid) as [s3 [l3 [Hop3 ->]]].
    split; [|split; reflexivity].
    simpl. repeat rewrite <- app_assoc. reflexivity.
Qed.

(** A pass in which the operator gives a product id and picks a
    publication, and the endpoint accepts the publish mutation with no user
    errors, sends exactly one publish request, for that product and that
    publication with the instant of the call as publish date, after the
    log line that announces it; the loop then goes on with its next
    pass. *)
Theorem iteration_publishes_choice (client : Client)
    (allPublications : list Publication) (w w1 w2 w3 : World)
    (productId publicationGid : string)
    (productPublications : list Publication) (later : list Response) :
  askProductId w = (Returned (Some productId), w1) ->
  productId <> EmptyString ->
  listProductPublications client productId
    (emit (ConsoleLog ("Looking for publications for product " ++ productId ++ "..."))
       w1)
  = (Returned productPublications, w2) ->
  askPublicationGid allPublications
    (emits (map ConsoleLog
              (printed ("Publications for product " ++ productId)
                 productPublications)) w2)
  = (Returned (Some publicationGid), w3) ->
  server w3 = Resolved (DataPublish (Some {| userErrors := [] |})) :: later ->
  let publish :=
    Sent (gqlClient client)
      (publishRequest ("gid://shopify/Product/" ++ productId) publicationGid
         (clock w (readings w))) in
  let added :=
    ([Prompt [productIdQuestion];
      ConsoleLog ("Looking for publications for product " ++ productId ++ "...");
      Sent (gqlClient client)
        (productPublicationsRequest ("gid://shopify/Product/" ++ productId))]
     ++ map ConsoleLog
          (printed ("Publications for product " ++ productId) productPublications)
     ++ [Prompt [publicationGidQuestion allPublications];
         ConsoleLog ("Publish product " ++ productId ++ " to "
                     ++ publicationGid ++ "...");
         publish])%list in
  exists w4,
    iteration client allPublications w = (Returned Continue, w4)
    /\ trace w4 = (trace w ++ added)%list
    /\ filter is_publish added = [publish]
    /\ server w4 = later
    /\ operator w4 = operator w3
    /\ (forall fuel,
          main_loop (S fuel) client allPublications w
          = main_loop fuel client allPublications w4).
Proof.
  intros Hask Hne Hlist Hgid Hserver publish added.
  destruct (iteration_up_to_choice _ _ _ _ _ _ _ _ _ Hask Hne Hlist Hgid)
    as [Hit [Htrace [Hclock Hreadings]]].
  assert (Hpub := publishProduct_run client productId publicationGid
                    (emit (ConsoleLog ("Publish product " ++ productId ++ " to "
                                       ++ publicationGid ++ "...")) w3)
                    {| userErrors := [] |} later Hserver).
  cbv zeta in Hpub. change (Nat.ltb 0 _) with false in Hpub. cbv iota in Hpub.
  assert (Hrun : iteration client allPublications w
                 = (Returned Continue,
                    with_server later
                      (emit (Sent (gqlClient client)
                               (publishRequest
                                  ("gid://shopify/Product/" ++ productId)
                                  publicationGid (clock w3 (readings w3))))
                         (with_readings (S (readings w3))
                            (emit (ConsoleLog
                                     ("Publish product " ++ productId ++ " to "
                                      ++ publicationGid ++ "...")) w3))))).
  { rewrite Hit. unfold bind, console_log. rewrite Hpub. reflexivity. }
  eexists. split; [exact Hrun|]. split; [|split; [|split; [|split]]].
  - simpl. rewrite Htrace, Hclock, Hreadings. subst added publish.
    repeat rewrite <- app_assoc. reflexivity.
  - subst added. simpl. rewrite filter_app. simpl.
    assert (Hlogs : forall lines, filter is_publish (map ConsoleLog lines) = []).
    { induction lines as [|l lines IH]; simpl; auto. }
    rewrite Hlogs. reflexivity.
  - reflexivity.
  - reflexivity.
  - intros fuel. unfold main_loop. simpl.
    now rewrite (bind_returned _ _ _ _ _ Hrun).
Qed.

Lemma iteration_publishes_choice_witness :
  exists w4,
    iteration acmeClient [onlineStore]
      (world no_files [[Prompts.Typed "42"]; [Prompts.Picked 1]; []]
         [Resolved (product_with []); Resolved (publish_with [])])
    = (Returned Continue, w4)
    /\ server w4 = []
    /\ filter is_publish (trace w4)
       = [Sent (gqlClient acmeClient)
            (publishRequest "gid://shopify/Product/42"
               "gid://shopify/Publication/1" "2021-09-01T12:00:00.000Z")].
Proof.
  destruct (iteration_publishes_choice acmeClient [onlineStore]
              (world no_files [[Prompts.Typed "42"]; [Prompts.Picked 1]; []]
                 [Resolved (product_with []); Resolved (publish_with [])])
              (emit (Prompt [productIdQuestion])
                 (world no_files [[Prompts.Picked 1]; []]
                    [Resolved (product_with []); Resolved (publish_with [])]))
              (emits [Prompt [productIdQuestion];
                      ConsoleLog "Looking for publications for product 42...";
                      Sent (gqlClient acmeClient)
                        (productPublicationsRequest "gid://shopify/Product/42")]
                 (world no_files [[Prompts.Picked 1]; []]
                    [Resolved (publish_with [])]))
              (emits
                 ([Prompt [productIdQuestion];
                   ConsoleLog "Looking for publications for product 42...";
                   Sent (gqlClient acmeClient)
                     (productPublicationsRequest "gid://shopify/Product/42")]
                  ++ map ConsoleLog (printed "Publications for product 42" [])
                  ++ [Prompt [publicationGidQuestion [onlineStore]]])
                 (world no_files [[]] [Resolved (publish_with [])]))
              "42" "gid://shopify/Publication/1" [] []
              eq_refl ltac:(discriminate) eq_refl eq_refl eq_refl)
    as [w4 [Hrun [Htrace [_ [Hserver _]]]]].
  exists w4. split; [exact Hrun|]. split; [exact Hserver|].
  rewrite Htrace. reflexivity.
Defined.

(** When the publish operation fails in a pass, for whatever reason, the
    pass and the loop end with that very error, for any number of passes
    left: nothing catches it, and none of the sessions the operator still
    has is asked for.  When the response carries user errors, the error is
    "Unable to publish". *)
Theorem main_loop_aborts_on_publish_error (client : Client)
    (allPublications : list Publication) (w w1 w2 w3 w4 : World)
    (productId publicationGid : string)
    (productPublications : list Publication) (e : JsError) :
  askProductId w = (Returned (Some productId), w1) ->
  productId <> EmptyString ->
  listProductPublications client productId
    (emit (ConsoleLog ("Looking for publications for product " ++ productId ++ "..."))
       w1)
  = (Returned productPublications, w2) ->
  askPublicationGid allPublications
    (emits (map ConsoleLog
              (printed ("Publications for product " ++ productId)
                 productPublications)) w2)
  = (Returned (Some publicationGid), w3) ->
  publishProduct client productId publicationGid
    (emit (ConsoleLog ("Publish product " ++ productId ++ " to "
                       ++ publicationGid ++ "...")) w3)
  = (Thrown e, w4) ->
  iteration client allPublications w = (Thrown e, w4)
  /\ (forall fuel,
        main_loop (S fuel) client allPublications w = (Thrown e, w4))
  /\ operator w4 = operator w3
  /\ (forall errs later,
        errs <> [] ->
        server w3 = Resolved (DataPublish (Some {| userErrors := errs |})) :: later ->
        e = Error "Unable to publish").
Proof.
  intros Hask Hne Hlist Hgid Hpub.
  destruct (iteration_up_to_choice _ _ _ _ _ _ _ _ _ Hask Hne Hlist Hgid)
    as [Hit _].
  assert (Hrun : iteration client allPublications w = (Thrown e, w4)).
  { rewrite Hit. unfold bind, console_log. rewrite Hpub. reflexivity. }
  split; [exact Hrun|]. split; [|split].
  - intros fuel. unfold main_loop. simpl.
    now rewrite (bind_thrown _ _ _ _ _ Hrun).
  - pose proof (publishProduct_keeps_operator client productId publicationGid
                  (emit (ConsoleLog ("Publish product " ++ productId ++ " to "
                                     ++ publicationGid ++ "...")) w3)) as Hop.
    rewrite Hpub in Hop. exact Hop.
  - intros errs later Herrs Hserver.
    rewrite (publishProduct_run client productId publicationGid
               (emit (ConsoleLog ("Publish product " ++ productId ++ " to "
                                  ++ publicationGid ++ "...")) w3)
               {| userErrors := errs |} later Hserver) in Hpub.
    destruct errs as [|err errs]; [contradiction|].
    simpl in Hpub. congruence.
Qed.

Lemma main_loop_aborts_on_publish_error_witness :
  main_loop 3 acmeClient [onlineStore]
    (world no_files [[Prompts.Typed "42"]; [Prompts.Picked 1]; [Prompts.Typed "43"]]
       [Resolved (product_with []); Rejected "Throttled"])
  = (Thrown (ClientError "Throttled"),
     emits
       ([Prompt [productIdQuestion];
         ConsoleLog "Looking for publications for product 42...";
         Sent (gqlClient acmeClient)
           (productPublicationsRequest "gid://shopify/Product/42")]
        ++ map ConsoleLog (printed "Publications for product 42" [])
        ++ [Prompt [publicationGidQuestion [onlineStore]];
            ConsoleLog "Publish product 42 to gid://shopify/Publication/1...";
            Sent (gqlClient acmeClient)
              (publishRequest "gid://shopify/Product/42"
                 "gid://shopify/Publication/1" (noon 0))])
       (with_readings 1 (world no_files [[Prompts.Typed "43"]] []))).
Proof.
  apply (main_loop_aborts_on_publish_error acmeClient [onlineStore]
           (world no_files
              [[Prompts.Typed "42"]; [Prompts.Picked 1]; [Prompts.Typed "43"]]
              [Resolved (product_with []); Rejected "Throttled"])
           (emit (Prompt [productIdQuestion])
              (world no_files [[Prompts.Picked 1]; [Prompts.Typed "43"]]
                 [Resolved (product_with []); Rejected "Throttled"]))
           (emits [Prompt [productIdQuestion];
                   ConsoleLog "Looking for publications for product 42...";
                   Sent (gqlClient acmeClient)
                     (productPublicationsRequest "gid://shopify/Product/42")]
              (world no_files [[Prompts.Picked 1]; [Prompts.Typed "43"]]
                 [Rejected "Throttled"]))
           (emits
              ([Prompt [productIdQuestion];
                ConsoleLog "Looking for publications for product 42...";
                Sent (gqlClient acmeClient)
                  (productPublicationsRequest "gid://shopify/Product/42")]
               ++ map ConsoleLog (printed "Publications for product 42" [])
               ++ [Prompt [publicationGidQuestion [onlineStore]]])
              (world no_files [[Prompts.Typed "43"]] [Rejected "Throttled"]))
           _ "42" "gid://shopify/Publication/1" [] (ClientError "Throttled")).
  - reflexivity.
  - discriminate.
  - reflexivity.
  - reflexivity.
  - reflexivity.
Defined.

(** ** Start-up and whole runs *)

Lemma loop_event_run_event (config : Config)
    (allPublications : list Publication) (e : Event) :
  loop_event (new_Client config) allPublications e -> run_event config e.
Proof.
  destruct e as [line|line errs|questions|to req|path|path content]; simpl;
    auto.
  - intros [-> | ->]; discriminate.
  - intros [Hto _]. exact Hto.
Qed.

Section StartUp.

Variable configPath : string.
Variable JSON_parse : string -> option Config.
Variable JSON_stringify : Config -> string.

(** [main] is [loadConfig] followed by a rest that, once it holds the
    config, only logs, prompts for something other than the config, and
    sends requests to the client built from that config. *)
Lemma main_after_load (fuel : nat) :
  exists rest : Config -> M unit,
    main configPath JSON_parse JSON_stringify fuel
    = bind (loadConfig configPath JSON_parse JSON_stringify) rest
    /\ forall config, does (rest config) (run_event config) anything.
Proof.
  eexists. split; [reflexivity|]. intros config. cbv beta zeta.
  apply does_bind with anything.
  { unfold listPublications.
    apply does_bind with anything;
      [apply does_request; reflexivity | intros r _].
    destruct r as [c|p|o]; try apply does_throw. now apply does_ret. }
  intros allPublications _.
  apply does_bind with anything; [now apply does_console_log | intros _ _].
  apply does_bind with anything;
    [apply does_printPublications; intros; exact I | intros _ _].
  apply does_weaken with (loop_event (new_Client config) allPublications) anything;
    [apply loop_event_run_event | auto | apply does_main_loop].
Qed.

Lemma loadConfig_existing_run (w : World) (content : string) :
  files w configPath = Some content ->
  loadConfig configPath JSON_parse JSON_stringify w
  = (match JSON_parse content with
     | Some config => Returned config
     | None => Thrown SyntaxError
     end,
     emits [ConsoleLog ("Using config from " ++ configPath ++ "...");
            ReadFile configPath] w).
Proof.
  intros Hfile.
  unfold loadConfig, bind, existsSync, console_log, readFile. simpl.
  rewrite Hfile. simpl. rewrite Hfile.
  unfold ret, throw, emit. rewrite emits_emits.
  destruct (JSON_parse content); reflexivity.
Qed.

(** When the config file exists and its content does not parse, the run
    ends at once with the parse error, whatever the fuel: the file has been
    read and nothing else has happened, so no prompt is shown, no request
    is sent and the file is not written over. *)
Theorem main_fails_on_malformed_config (fuel : nat) (w : World)
    (content : string) :
  files w configPath = Some content ->
  JSON_parse content = None ->
  let added :=
    [ConsoleLog ("Using config from " ++ configPath ++ "...");
     ReadFile configPath] in
  loadConfig configPath JSON_parse JSON_stringify w
  = (Thrown SyntaxError, emits added w)
  /\ main configPath JSON_parse JSON_stringify fuel w
     = (Thrown SyntaxError, emits added w)
  /\ existsb is_prompt added = false
  /\ existsb is_sent added = false
  /\ existsb is_write added = false.
Proof.
  intros Hfile Hparse added.
  assert (Hload : loadConfig configPath JSON_parse JSON_stringify w
                  = (Thrown SyntaxError, emits added w)).
  { rewrite (loadConfig_existing_run w content Hfile), Hparse. reflexivity. }
  split; [exact Hload|]. split; [|repeat split].
  unfold main. now rewrite (bind_thrown _ _ _ _ _ Hload).
Qed.

(** A run that finds a config file never starts a write and never shows
    the config prompt, whatever the file holds and however long the run
    goes on: an existing config file is only ever read. *)
Theorem main_keeps_existing_config (fuel : nat) (w : World) (content : string) :
  files w configPath = Some content ->
  exists evs,
    trace (snd (main configPath JSON_parse JSON_stringify fuel w))
    = (trace w ++ evs)%list
    /\ existsb is_write evs = false
    /\ ~ In (Prompt configQuestions) evs.
Proof.
  intros Hfile.
  destruct (main_after_load fuel) as [rest [E Hrest]].
  rewrite E. unfold bind.
  rewrite (loadConfig_existing_run w content Hfile).
  set (loaded := [ConsoleLog ("Using config from " ++ configPath ++ "...");
                  ReadFile configPath]).
  destruct (JSON_parse content) as [config|].
  - destruct (Hrest config (emits loaded w)) as [evs [T [F _]]].
    exists (loaded ++ evs)%list. rewrite T. simpl trace.
    rewrite <- app_assoc. split; [reflexivity|].
    assert (Hw : existsb is_write evs = false).
    { clear T. induction F as [|e evs He _ IH]; [reflexivity|].
      simpl. rewrite IH. destruct e; simpl in *; try reflexivity; contradiction. }
    split; [exact Hw|].
    intros [H|[H|H]]; try discriminate.
    rewrite Forall_forall in F. now apply (F _ H).
  - exists loaded. split; [reflexivity|]. split; [reflexivity|].
    intros [H|[H|[]]]; discriminate.
Qed.

(** Once [loadConfig] has returned a config, every request of the run,
    at start-up and in every pass of the loop, is sent to the one endpoint
    built from that config: the host named by its [shopName]
    ("undefined" when the field is missing), with its [accessToken] as the
    access-token header. *)
Theorem main_requests_target_configured_shop (fuel : nat) (w wa : World)
    (config : Config) :
  loadConfig configPath JSON_parse JSON_stringify w = (Returned config, wa) ->
  exists evs,
    trace (snd (main configPath JSON_parse JSON_stringify fuel w))
    = (trace wa ++ evs)%list
    /\ forall to req,
         In (Sent to req) evs ->
         url to = "https://" ++ template (get config "shopName")
                  ++ ".myshopify.com/admin/api/2021-07/graphql.json"
         /\ headers to = [("X-Shopify-Access-Token", get config "accessToken")].
Proof.
  intros Hload.
  destruct (main_after_load fuel) as [rest [E Hrest]].
  rewrite E, (bind_returned _ _ _ _ _ Hload).
  destruct (Hrest config wa) as [evs [T [F _]]].
  exists evs. split; [exact T|].
  intros to req Hin. rewrite Forall_forall in F. specialize (F _ Hin).
  simpl in F. subst to. split; reflexivity.
Qed.

(** When the first request, for the list of all publications, fails, the
    run ends with that failure before the loop is entered, whatever the
    fuel: a rejected request is rethrown as it is, a response of another
    shape fails on reading [edges], and in both cases the operator is not
    asked for a product id. *)
Theorem main_fails_at_start_up (fuel : nat) (w wa : World) (config : Config)
    (r : Response) (later : list Response) :
  loadConfig configPath JSON_parse JSON_stringify w = (Returned config, wa) ->
  server wa = r :: later ->
  let wb :=
    with_server later
      (emit (Sent (gqlClient (new_Client config)) publicationsRequest) wa) in
  (forall reason, r = Rejected reason ->
     main configPath JSON_parse JSON_stringify fuel w
     = (Thrown (ClientError reason), wb))
  /\ (forall data, r = Resolved data ->
        (forall publications, data <> DataPublications publications) ->
        main configPath JSON_parse JSON_stringify fuel w
        = (Thrown (TypeError "edges"), wb))
  /\ operator wb = operator wa.
Proof.
  intros Hload Hserver wb.
  split; [|split; [|reflexivity]].
  - intros reason ->. unfold main.
    rewrite (bind_returned _ _ _ _ _ Hload). cbv zeta.
    apply bind_thrown. unfold listPublications.
    apply bind_thrown. unfold request. now rewrite Hserver.
  - intros data -> Hshape. unfold main.
    rewrite (bind_returned _ _ _ _ _ Hload). cbv zeta.
    apply bind_thrown. unfold listPublications, bind, request.
    rewrite Hserver.
    destruct data as [c|p|o]; try reflexivity. now destruct (Hshape c).
Qed.

(** What a first run writes is what the next run loads: when no config
    file exists, [loadConfig] starts the write of the JSON text of the
    object it collected, and on a world whose config file holds that text
    [loadConfig] returns the same object without prompting, provided
    [JSON.parse] reads back what [JSON.stringify] wrote.  This holds for an
    object collected from a cancelled prompt too. *)
Theorem loadConfig_reloads_written_config (w w2 : World)
    (session : list Prompts.Input) (later : list (list Prompts.Input)) :
  files w configPath = None ->
  operator w = session :: later ->
  let config := Prompts.ask configQuestions session [] in
  JSON_parse (JSON_stringify config) = Some config ->
  files w2 configPath = Some (JSON_stringify config) ->
  fst (loadConfig configPath JSON_parse JSON_stringify w) = Returned config
  /\ In (WriteFile configPath (JSON_stringify config))
       (trace (snd (loadConfig configPath JSON_parse JSON_stringify w)))
  /\ fst (loadConfig configPath JSON_parse JSON_stringify w2) = Returned config
  /\ operator (snd (loadConfig configPath JSON_parse JSON_stringify w2))
     = operator w2.
Proof.
  intros Hfile Hop config Hround Hfile2.
  assert (Hfirst : loadConfig configPath JSON_parse JSON_stringify w
                   = (Returned config,
                      with_operator later
                        (emits [Prompt configQuestions;
                                ConsoleLog ("Writing config to " ++ configPath ++ ".");
                                WriteFile configPath (JSON_stringify config)] w))).
  { subst config.
    unfold loadConfig, bind, existsSync, askConfig, prompts, console_log,
      writeFile_unawaited.
    rewrite Hfile, Hop.
    generalize (Prompts.ask configQuestions session []). intros config.
    unfold ret, emit, emits, with_operator. simpl.
    now rewrite <- !app_assoc. }
  rewrite Hfirst, (loadConfig_existing_run w2 _ Hfile2), Hround.
  split; [reflexivity|]. split; [|split; reflexivity].
  simpl. apply in_or_app. right. simpl. auto.
Qed.

End StartUp.

Lemma main_fails_on_malformed_config_witness :
  ExampleHost.main 5
    (world (config_file_with "{ shopName: acme }") [[Prompts.Typed "42"]]
       [Resolved (publications_of [onlineStore])])
  = (Thrown SyntaxError,
     emits [ConsoleLog "Using config from /opt/shopify-publish-demo/config.json...";
            ReadFile ExampleHost.configPath]
       (world (config_file_with "{ shopName: acme }") [[Prompts.Typed "42"]]
          [Resolved (publications_of [onlineStore])])).
Proof.
  apply (main_fails_on_malformed_config ExampleHost.configPath
           ExampleHost.JSON_parse ExampleHost.JSON_stringify 5
           (world (config_file_with "{ shopName: acme }") [[Prompts.Typed "42"]]
              [Resolved (publications_of [onlineStore])])
           "{ shopName: acme }").
  - reflexivity.
  - vm_compute. reflexivity.
Defined.

Lemma main_keeps_existing_config_witness :
  exists evs,
    trace (snd (ExampleHost.main 2
                  (world acme_files [[Prompts.Typed "42"]; []; []]
                     [Resolved (publications_of [onlineStore]);
                      Resolved (product_with [onlineStore])])))
    = (trace (world acme_files [[Prompts.Typed "42"]; []; []]
                [Resolved (publications_of [onlineStore]);
                 Resolved (product_with [onlineStore])]) ++ evs)%list
    /\ existsb is_write evs = false
    /\ ~ In (Prompt configQuestions) evs.
Proof.
  apply (main_keeps_existing_config ExampleHost.configPath
           ExampleHost.JSON_parse ExampleHost.JSON_stringify 2
           (world acme_files [[Prompts.Typed "42"]; []; []]
              [Resolved (publications_of [onlineStore]);
               Resolved (product_with [onlineStore])])
           (ExampleHost.JSON_stringify acme)).
  reflexivity.
Defined.

Lemma main_requests_target_configured_shop_witness :
  exists evs,
    trace (snd (ExampleHost.main 2
                  (world acme_files [[Prompts.Typed "42"]; [Prompts.Picked 1]; []]
                     [Resolved (publications_of [onlineStore]);
                      Resolved (product_with []);
                      Resolved (publish_with [])])))
    = ([ConsoleLog "Using config from /opt/shopify-publish-demo/config.json...";
        ReadFile ExampleHost.configPath] ++ evs)%list
    /\ forall to req,
         In (Sent to req) evs ->
         url to = "https://acme.myshopify.com/admin/api/2021-07/graphql.json"
         /\ headers to = [("X-Shopify-Access-Token", Some "tok")].
Proof.
  apply (main_requests_target_configured_shop ExampleHost.configPath
           ExampleHost.JSON_parse ExampleHost.JSON_stringify 2
           (world acme_files [[Prompts.Typed "42"]; [Prompts.Picked 1]; []]
              [Resolved (publications_of [onlineStore]);
               Resolved (product_with []);
               Resolved (publish_with [])])
           (emits [ConsoleLog "Using config from /opt/shopify-publish-demo/config.json...";
                   ReadFile ExampleHost.configPath]
              (world acme_files [[Prompts.Typed "42"]; [Prompts.Picked 1]; []]
                 [Resolved (publications_of [onlineStore]);
                  Resolved (product_with []);
                  Resolved (publish_with [])]))
           acme).
  vm_compute. reflexivity.
Defined.

Lemma main_fails_at_start_up_witness :
  ExampleHost.main 1
    (world acme_files [[Prompts.Typed "42"]] [Rejected "Unauthorized"])
  = (Thrown (ClientError "Unauthorized"),
     emits [ConsoleLog "Using config from /opt/shopify-publish-demo/config.json...";
            ReadFile ExampleHost.configPath;
            Sent (gqlClient acmeClient) publicationsRequest]
       (world acme_files [[Prompts.Typed "42"]] [])).
Proof.
  pose proof (main_fails_at_start_up ExampleHost.configPath
    ExampleHost.JSON_parse ExampleHost.JSON_stringify 1
    (world acme_files [[Prompts.Typed "42"]] [Rejected "Unauthorized"])
    (emits [ConsoleLog "Using config from /opt/shopify-publish-demo/config.json...";
            ReadFile ExampleHost.configPath]
       (world acme_files [[Prompts.Typed "42"]] [Rejected "Unauthorized"]))
    acme (Rejected "Unauthorized") []) as H.
  destruct H as [Hrejected _].
  - vm_compute. reflexivity.
  - reflexivity.
  - apply (Hrejected "Unauthorized"). reflexivity.
Defined.

Lemma loadConfig_reloads_written_config_witness :
  fst (ExampleHost.loadConfig
         (world no_files [[Prompts.Typed "acme"; Prompts.Typed "tok"]] []))
  = Returned acme
  /\ fst (ExampleHost.loadConfig
            (world (config_file_with (ExampleHost.JSON_stringify acme)) [] []))
     = Returned acme.
Proof.
  destruct (loadConfig_reloads_written_config ExampleHost.configPath
              ExampleHost.JSON_parse ExampleHost.JSON_stringify
              (world no_files [[Prompts.Typed "acme"; Prompts.Typed "tok"]] [])
              (world (config_file_with (ExampleHost.JSON_stringify acme)) [] [])
              [Prompts.Typed "acme"; Prompts.Typed "tok"] [])
    as [Hfirst [_ [Hsecond _]]].
  - reflexivity.
  - reflexivity.
  - vm_compute. reflexivity.
  - reflexivity.
  - split; [exact Hfirst | exact Hsecond].
Defined.

(** Each call of [publishProduct] takes its publish date from the clock
    anew: of two calls in a row that the endpoint accepts, the first sends
    the instant read at the first call and the second the next reading, and
    each sends its own product and publication. *)
Theorem publishProduct_dates_each_call (this : Client)
    (productId1 publicationGid1 productId2 publicationGid2 : string)
    (w : World) (later : list Response) :
  server w = Resolved (DataPublish (Some {| userErrors := [] |}))
             :: Resolved (DataPublish (Some {| userErrors := [] |})) :: later ->
  (publishProduct this productId1 publicationGid1 ;;
   publishProduct this productId2 publicationGid2) w
  = (Returned tt,
     with_server later
       (with_readings (S (S (readings w)))
          (emits
             [Sent (gqlClient this)
                (publishRequest ("gid://shopify/Product/" ++ productId1)
                   publicationGid1 (clock w (readings w)));
              Sent (gqlClient this)
                (publishRequest ("gid://shopify/Product/" ++ productId2)
                   publicationGid2 (clock w (S (readings w))))] w))).
Proof.
  intros Hserver.
  pose proof (publishProduct_run this productId1 publicationGid1 w
                {| userErrors := [] |} _ Hserver) as H1.
  cbv zeta in H1. change (Nat.ltb 0 _) with false in H1. cbv iota in H1.
  rewrite (bind_returned _ _ _ _ _ H1).
  match goal with
  | |- publishProduct _ _ _ ?w1 = _ =>
      rewrite (publishProduct_run this productId2 publicationGid2 w1
                 {| userErrors := [] |} later eq_refl)
  end.
  cbv zeta. change (Nat.ltb 0 _) with false. cbv iota.
  f_equal. unfold with_server, with_readings, emit, emits. simpl.
  now rewrite <- app_assoc.
Qed.

Lemma publishProduct_dates_each_call_witness :
  (publishProduct acmeClient "42" (gid onlineStore) ;;
   publishProduct acmeClient "43" (gid pointOfSale))
    {| files := no_files; operator := [];
       server := [Resolved (publish_with []); Resolved (publish_with [])];
       clock := fun n => if Nat.eqb n 0 then "2021-09-01T12:00:00.000Z"
                         else "2021-09-01T12:00:07.500Z";
       readings := 0; trace := [] |}
  = (Returned tt,
     {| files := no_files; operator := []; server := [];
        clock := fun n => if Nat.eqb n 0 then "2021-09-01T12:00:00.000Z"
                          else "2021-09-01T12:00:07.500Z";
        readings := 2;
        trace :=
          [Sent (gqlClient acmeClient)
             (publishRequest "gid://shopify/Product/42" (gid onlineStore)
                "2021-09-01T12:00:00.000Z");
           Sent (gqlClient acmeClient)
             (publishRequest "gid://shopify/Product/43" (gid pointOfSale)
                "2021-09-01T12:00:07.500Z")] |}).
Proof.
  apply (publishProduct_dates_each_call acmeClient "42" (gid onlineStore)
           "43" (gid pointOfSale)
           {| files := no_files; operator := [];
              server := [Resolved (publish_with []); Resolved (publish_with [])];
              clock := fun n => if Nat.eqb n 0 then "2021-09-01T12:00:00.000Z"
                                else "2021-09-01T12:00:07.500Z";
              readings := 0; trace := [] |}
           []).
  reflexivity.
Defined.

Section FetchedList.

Variable configPath : string.
Variable JSON_parse : string -> option Config.
Variable JSON_stringify : Config -> string.

(** When start-up succeeds, [main] asks the endpoint for the list of all
    publications once, prints it under "All publications", and then runs
    the loop on that list: every menu shown to the operator is made of the
    publications of that one response, in response order, and every publish
    request names the gid of one of them. *)
Theorem main_runs_on_the_fetched_list (fuel : nat) (w wa : World)
    (config : Config) (publications : Connection Publication)
    (later : list Response) :
  loadConfig configPath JSON_parse JSON_stringify w = (Returned config, wa) ->
  server wa = Resolved (DataPublications publications) :: later ->
  let fetched := map node (edges publications) in
  exists evs,
    trace (snd (main configPath JSON_parse JSON_stringify fuel w))
    = (trace wa
       ++ [Sent (gqlClient (new_Client config)) publicationsRequest;
           ConsoleLog "Looking for all publications..."]
       ++ map ConsoleLog (printed "All publications" fetched)
       ++ evs)%list
    /\ (forall questions,
          In (Prompt questions) evs ->
          questions = [productIdQuestion]
          \/ questions = [publicationGidQuestion fetched])
    /\ (forall to req,
          In (Sent to req) evs ->
          (forall first, operation req <> PublicationsQuery first)
          /\ (operation req = PublishMutation ->
              exists productGid publicationGid publishDate,
                variables req = [("productGid", productGid);
                                 ("publicationGid", publicationGid);
                                 ("publishDate", publishDate)]
                /\ In publicationGid (map gid fetched))).
Proof.
  intros Hload Hserver fetched.
  assert (Hlist : listPublications (new_Client config) wa
                  = (Returned fetched,
                     with_server later
                       (emit (Sent (gqlClient (new_Client config))
                                publicationsRequest) wa))).
  { unfold listPublications, bind, request. now rewrite Hserver. }
  rewrite (main_enters_loop _ _ _ _ _ _ _ _ _ Hload Hlist).
  match goal with
  | |- context [main_loop fuel ?c ?ps ?w0] =>
      destruct (does_main_loop fuel c ps w0) as [evs [T [F _]]]
  end.
  exists evs. split; [|split].
  - rewrite T. simpl. repeat rewrite <- app_assoc. reflexivity.
  - intros questions Hin. rewrite Forall_forall in F. apply (F _ Hin).
  - intros to req Hin. rewrite Forall_forall in F. specialize (F _ Hin).
    simpl in F.
    destruct F as [_ [productId [_ [Hreq | [g [date [[_ [p [Hp Hg]]] Hreq]]]]]]];
      subst req.
    + split; [intros first|]; discriminate.
    + split; [intros first; discriminate | intros _].
      exists ("gid://shopify/Product/" ++ productId), g, date.
      split; [reflexivity|]. subst g. now apply in_map.
Qed.

End FetchedList.

Lemma main_runs_on_the_fetched_list_witness :
  exists evs,
    trace (snd (ExampleHost.main 2
                  (world acme_files [[Prompts.Typed "42"]; [Prompts.Picked 1]; []]
                     [Resolved (publications_of [onlineStore]);
                      Resolved (product_with []);
                      Resolved (publish_with [])])))
    = ([ConsoleLog "Using config from /opt/shopify-publish-demo/config.json...";
        ReadFile ExampleHost.configPath]
       ++ [Sent (gqlClient acmeClient) publicationsRequest;
           ConsoleLog "Looking for all publications..."]
       ++ map ConsoleLog (printed "All publications" [onlineStore])
       ++ evs)%list
    /\ forall questions,
         In (Prompt questions) evs ->
         questions = [productIdQuestion]
         \/ questions = [publicationGidQuestion [onlineStore]].
Proof.
  destruct (main_runs_on_the_fetched_list ExampleHost.configPath
              ExampleHost.JSON_parse ExampleHost.JSON_stringify 2
              (world acme_files [[Prompts.Typed "42"]; [Prompts.Picked 1]; []]
                 [Resolved (publications_of [onlineStore]);
                  Resolved (product_with []);
                  Resolved (publish_with [])])
              (emits [ConsoleLog "Using config from /opt/shopify-publish-demo/config.json...";
                      ReadFile ExampleHost.configPath]
                 (world acme_files [[Prompts.Typed "42"]; [Prompts.Picked 1]; []]
                    [Resolved (publications_of [onlineStore]);
                     Resolved (product_with []);
                     Resolved (publish_with [])]))
              acme {| edges := [ {| node := onlineStore |} ] |}
              [Resolved (product_with []); Resolved (publish_with [])])
    as [evs [T [Hprompts _]]].
  - vm_compute. reflexivity.
  - reflexivity.
  - exists evs. split; [exact T | exact Hprompts].
Defined.
